(** * COVID-19 data loading notebook: a model of its file-system behaviour

    The notebook [1-COVID-19-Loading-Data.ipynb] is a straight-line script:
    one cell prepares a dated download folder, seven cells read a CSV
    resource and pickle the resulting frame, three cells download a zipped
    shapefile, unpack it into a scratch folder, read it, pickle it and
    remove the scratch folder.

    The script is embedded as a program in a state-and-exception monad.
    The state is the directory tree below the notebook's working directory
    together with the list of URLs requested so far; an exception leaves
    the state as it was at the raising call, as in Python.  The network,
    the CSV, zip and shapefile readers and the pickle encoder are
    parameters of the development. *)

From stdpp Require Import gmap strings list fin_maps pretty.
From Stdlib Require Import Strings.Byte.

#[local] Set Warnings "-register-all".

(** ** Directory tree *)

Definition bytes := list Byte.byte.
Definition path := list string.

(** What [os.stat] reports about an entry. *)
Inductive ftype := S_IFDIR | S_IFREG | S_IFOTHER.

(** An entry of a directory.  A symbolic link is a leaf that records what
    [os.stat] sees through it ([None] for a dangling link); the link's
    target lies outside the modelled tree.  [Special] stands for a FIFO,
    a socket or a device node.  Permissions and free space are not
    modelled: an operation fails only for the kind of entry it meets. *)
Inductive node :=
| File (data : bytes)
| Dir (entries : gmap string node)
| Symlink (target : option ftype)
| Special.

(** [walk p m] is the entry named by the relative path [p] in the working
    directory [m], without following a link at the last component (as
    [os.lstat]); inner components must be real directories. *)
Fixpoint walk (p : path) (m : gmap string node) : option node :=
  match p with
  | [] => Some (Dir m)
  | c :: p' =>
      match p' with
      | [] => m !! c
      | _ => match m !! c with Some (Dir m') => walk p' m' | _ => None end
      end
  end.

(** [graft p f m] rewrites the entry at [p] with [f]; nothing happens when
    the directories leading to [p] do not exist. *)
Fixpoint graft (p : path) (f : option node → option node)
    (m : gmap string node) : gmap string node :=
  match p with
  | [] => m
  | c :: p' =>
      match p' with
      | [] => partial_alter f c m
      | _ => alter (λ n, match n with
                         | Dir m' => Dir (graft p' f m')
                         | _ => n
                         end) c m
      end
  end.

Definition stat (p : path) (m : gmap string node) : option ftype :=
  match walk p m with
  | None => None
  | Some (File _) => Some S_IFREG
  | Some (Dir _) => Some S_IFDIR
  | Some (Symlink t) => t
  | Some Special => Some S_IFOTHER
  end.

Definition parent (p : path) : path := removelast p.

(** [pathlib]'s [/] operator. *)
Definition path_join (p : path) (name : string) : path := p ++ [name].
Infix "//" := path_join (at level 40, left associativity).

(** A directory with nothing in it. *)
Definition empty_dir (p : path) (m : gmap string node) : Prop :=
  walk p m = Some (Dir ∅).

(** ** Exceptions, state and the monad *)

Inductive exn :=
| FileExistsError
| FileNotFoundError
| NotADirectoryError
| IsADirectoryError
| OSError
| URLError        (* urllib: no connection, or a status other than 200 *)
| ParserError     (* pandas: the bytes are not a CSV table *)
| BadZipFile      (* zipfile: the bytes are not a zip archive *)
| DriverError.    (* geopandas: the shapefile cannot be opened or read *)

Inductive outcome (A : Type) :=
| Ok (a : A)
| Raise (e : exn).
Arguments Ok {A} a.
Arguments Raise {A} e.

Record state := State {
  cwd : gmap string node;      (* entries of the working directory *)
  requests : list string       (* URLs handed to [urlopen] so far, oldest first *)
}.

Definition M (A : Type) : Type := state → outcome A * state.

#[global] Instance M_ret : MRet M := λ A a st, (Ok a, st).
#[global] Instance M_bind : MBind M := λ A B f c st,
  match c st with
  | (Ok a, st') => f a st'
  | (Raise e, st') => (Raise e, st')
  end.

Definition raise {A} (e : exn) : M A := λ st, (Raise e, st).

(** A read-only query of the tree. *)
Definition query {A} (q : gmap string node → A) : M A :=
  λ st, (Ok (q (cwd st)), st).

(** A file-system call: it either raises and changes nothing, or replaces
    the tree. *)
Definition syscall (op : gmap string node → exn + gmap string node) : M unit :=
  λ st, match op (cwd st) with
        | inl e => (Raise e, st)
        | inr m => (Ok tt, State m (requests st))
        end.

(** ** The library calls the notebook makes on the file system *)

(** [Path.is_dir()] and [Path.is_file()] follow links and answer [False]
    for anything that cannot be examined. *)
Definition is_dir (p : path) : M bool :=
  query (λ m, match stat p m with Some S_IFDIR => true | _ => false end).
Definition is_file (p : path) : M bool :=
  query (λ m, match stat p m with Some S_IFREG => true | _ => false end).

(** [os.path.exists]. *)
Definition path_exists (p : path) (m : gmap string node) : bool :=
  match stat p m with Some _ => true | None => false end.

(** [shutil.rmtree(p)]: refuses links, needs a directory, removes it with
    all it holds.  The notebook never calls it on the working directory
    itself, which is reported as [OSError].  A removal that the file
    system refuses half-way, leaving part of the contents deleted, is a
    matter of permissions and so outside this model. *)
Definition rmtree_op (p : path) (m : gmap string node) : exn + gmap string node :=
  match p with
  | [] => inl OSError
  | _ => match walk p m with
         | Some (Dir _) => inr (graft p (λ _, None) m)
         | Some (Symlink _) => inl OSError
         | Some _ => inl NotADirectoryError
         | None => inl FileNotFoundError
         end
  end.
Definition rmtree (p : path) : M unit := syscall (rmtree_op p).

(** [Path.unlink()]: removes a file, a link or a special entry. *)
Definition unlink_op (p : path) (m : gmap string node) : exn + gmap string node :=
  match walk p m with
  | Some (Dir _) => inl IsADirectoryError
  | Some _ => inr (graft p (λ _, None) m)
  | None => inl FileNotFoundError
  end.
Definition unlink (p : path) : M unit := syscall (unlink_op p).

(** [Path.mkdir()] with its default arguments: the parent must be a
    directory and the name must be free (a dangling link occupies it). *)
Definition mkdir_op (p : path) (m : gmap string node) : exn + gmap string node :=
  match walk p m with
  | Some _ => inl FileExistsError
  | None =>
      match walk (parent p) m with
      | Some (Dir _) => inr (graft p (λ _, Some (Dir ∅)) m)
      | Some _ => inl NotADirectoryError
      | None => inl FileNotFoundError
      end
  end.
Definition mkdir (p : path) : M unit := syscall (mkdir_op p).

(** [open(p, 'wb')] followed by writing [data] and closing: creates or
    truncates a regular file.  Bytes sent through a link or into a special
    entry leave the modelled tree as it is. *)
Definition write_op (p : path) (data : bytes) (m : gmap string node)
    : exn + gmap string node :=
  match walk (parent p) m with
  | Some (Dir _) =>
      match walk p m with
      | Some (Dir _) => inl IsADirectoryError
      | Some (Symlink (Some S_IFDIR)) => inl IsADirectoryError
      | Some (Symlink _) => inr m
      | Some Special => inr m
      | Some (File _) => inr (graft p (λ _, Some (File data)) m)
      | None => inr (graft p (λ _, Some (File data)) m)
      end
  | Some _ => inl NotADirectoryError
  | None => inl FileNotFoundError
  end.
Definition write_bytes (p : path) (data : bytes) : M unit :=
  syscall (write_op p data).

(** ** Cell 6: the download folder *)

Record date := Date { year : nat; month : nat; day : nat }.

Fixpoint zeros (k : nat) : string :=
  match k with
  | 0 => ""
  | S k' => "0" +:+ zeros k'
  end.

(** Decimal rendering padded with zeros to [w] digits. *)
Definition zfill (w n : nat) : string :=
  let s := pretty n in zeros (w - String.length s) +:+ s.

(** [datetime.strftime('%Y-%m-%d')]. *)
Definition strftime_Ymd (d : date) : string :=
  zfill 4 (year d) +:+ "-" +:+ zfill 2 (month d) +:+ "-" +:+ zfill 2 (day d).

(** [download_folder = Path(datetime.today().strftime('%Y-%m-%d') + '-COVID-19-Data')]:
    a relative path of one component.  In the notebook the name is a
    global that cell 6 binds and the later cells read; the model computes
    it from the date, so it describes sessions in which cell 6 has been
    run (a later cell run in a fresh session stops with [NameError]
    before it touches anything). *)
Definition folder_name (today : date) : string :=
  strftime_Ymd today +:+ "-COVID-19-Data".
Definition download_folder (today : date) : path := [folder_name today].

(** <<
    if download_folder.is_dir():
        shutil.rmtree(download_folder)
    elif download_folder.is_file():
        download_folder.unlink()

    download_folder.mkdir()
    >> *)
Definition cell_6 (today : date) : M unit :=
  d ← is_dir (download_folder today);
  (if d : bool then rmtree (download_folder today)
   else
     f ← is_file (download_folder today);
     if f : bool then unlink (download_folder today) else mret tt);;
  mkdir (download_folder today).

(** ** The outside world

    What the notebook obtains from the network and from the libraries it
    calls.  [table] is the type of frames ([DataFrame], [GeoDataFrame]). *)

(** An entry of a zip archive, its name already split at [/] and cleaned
    as [zipfile] does before extracting. *)
Inductive zip_member :=
| ZipFileEntry (arcname : path) (data : bytes)
| ZipDirEntry (arcname : path).

Record world (table : Type) := World {
  (* body of the response to a GET; [None] when the connection fails or
     the status is not 200 *)
  http_get : string → option bytes;
  (* pandas' CSV parser; [None] when it rejects the bytes *)
  parse_csv : bytes → option table;
  (* the entries of a zip archive; [None] when the bytes are not one *)
  zip_members : bytes → option (list zip_member);
  (* the shapefile reader, given the directory holding the file set and
     the name of the [.shp] file in it *)
  read_shapefile : gmap string node → string → option table;
  (* [pickle.dumps] *)
  pickle_dumps : table → bytes
}.
Arguments http_get {table} _ _.
Arguments parse_csv {table} _ _.
Arguments zip_members {table} _ _.
Arguments read_shapefile {table} _ _ _.
Arguments pickle_dumps {table} _ _.

(** ** Fetching, parsing, caching *)

Section Notebook.
Context {table : Type} (W : world table).

(** [urlopen(url).read()]: the call is recorded, then answered by the
    world ([pd.read_csv] opens its URL the same way). *)
Definition urlopen_read (url : string) : M bytes :=
  λ st, let st' := State (cwd st) (requests st ++ [url]) in
        match http_get W url with
        | Some body => (Ok body, st')
        | None => (Raise URLError, st')
        end.

(** [urllib.request.urlcleanup()] clears [urlretrieve]'s temporary files,
    of which the notebook has none. *)
Definition urlcleanup : M unit := mret tt.

(** [pd.read_csv(url)] *)
Definition read_csv (url : string) : M table :=
  body ← urlopen_read url;
  match parse_csv W body with
  | Some df => mret df
  | None => raise ParserError
  end.

(** [df.to_pickle(p)] *)
Definition to_pickle (df : table) (p : path) : M unit :=
  write_bytes p (pickle_dumps W df).

(** [ZipFile(BytesIO(body))] *)
Definition ZipFile (body : bytes) : M (list zip_member) :=
  match zip_members W body with
  | Some members => mret members
  | None => raise BadZipFile
  end.

Definition catch_FileExistsError (c : M unit) : M unit :=
  λ st, match c st with
        | (Raise FileExistsError, st') => (Ok tt, st')
        | r => r
        end.

(** [os.makedirs(name)], the name given last component first: the missing
    ancestors are made first, then the directory itself. *)
Fixpoint makedirs_rev (rname : list string) : M unit :=
  match rname with
  | [] => mkdir []
  | _ :: rhead =>
      match rhead with
      | [] => mret tt
      | _ =>
          e ← query (path_exists (rev rhead));
          if e : bool then mret tt
          else catch_FileExistsError (makedirs_rev rhead)
      end;;
      mkdir (rev rname)
  end.
Definition makedirs (name : path) : M unit := makedirs_rev (rev name).

(** [ZipFile._extract_member]: make the upper directories when they are
    missing, then create the directory or write the file. *)
Definition extract_member (targetdir : path) (member : zip_member) : M unit :=
  let arcname := match member with
                 | ZipFileEntry a _ => a
                 | ZipDirEntry a => a
                 end in
  let targetpath := targetdir ++ arcname in
  let upperdirs := parent targetpath in
  match upperdirs with
  | [] => mret tt
  | _ =>
      e ← query (path_exists upperdirs);
      if e : bool then mret tt else makedirs upperdirs
  end;;
  match member with
  | ZipDirEntry _ =>
      d ← is_dir targetpath;
      if d : bool then mret tt else mkdir targetpath
  | ZipFileEntry _ data => write_bytes targetpath data
  end.

(** [zip_file.extractall(targetdir)] *)
Fixpoint extractall (members : list zip_member) (targetdir : path) : M unit :=
  match members with
  | [] => mret tt
  | member :: rest =>
      extract_member targetdir member;;
      extractall rest targetdir
  end.

(** [gpd.read_file(p)]: the [.shp] file must be there; the reader then
    works on the file set in its directory. *)
Definition gpd_read_file (p : path) : M table :=
  λ st, match walk p (cwd st), walk (parent p) (cwd st) with
        | Some (File _), Some (Dir d) =>
            match read_shapefile W d (List.last p "") with
            | Some gdf => (Ok gdf, st)
            | None => (Raise DriverError, st)
            end
        | _, _ => (Raise DriverError, st)
        end.

(** *** The two kinds of cell *)

(** <<
    df = pd.read_csv(url)
    df.to_pickle(download_folder / pkl)
    >> *)
Definition csv_cell (today : date) (url pkl : string) : M unit :=
  df ← read_csv url;
  to_pickle df (download_folder today // pkl).

(** <<
    sub_folder = download_folder / sub
    urlcleanup()
    with urlopen(url) as zip_response:
        with ZipFile(BytesIO(zip_response.read())) as zip_file:
            zip_file.extractall(sub_folder)
    gdf = gpd.read_file(sub_folder / shp)
    >> *)
Definition archive_fetch (today : date) (url sub shp : string) : M table :=
  let sub_folder := download_folder today // sub in
  urlcleanup;;
  zip_response ← urlopen_read url;
  zip_file ← ZipFile zip_response;
  extractall zip_file sub_folder;;
  gpd_read_file (sub_folder // shp).

(** <<
    gdf.to_pickle(download_folder / pkl)
    shutil.rmtree(sub_folder)
    >> *)
Definition archive_cell (today : date) (url sub shp pkl : string) : M unit :=
  let sub_folder := download_folder today // sub in
  gdf ← archive_fetch today url sub shp;
  to_pickle gdf (download_folder today // pkl);;
  rmtree sub_folder.

(** *** The ten fetch steps *)

Inductive source :=
| Csv (url : string)
| Shapefile (url : string) (sub shp : string).

Record fetch_step := FetchStep { src : source; pkl : string }.

Definition CTP_all_states : string :=
  "https://api.covidtracking.com/v1/states/daily.csv".
Definition df_CTP : fetch_step :=
  FetchStep (Csv CTP_all_states) "covid_tracking_project.pkl".

Definition CAN_Key : string := "<your key here>".
Definition CAN_File : string := "states.timeseries.csv".
(** [f'https://api.covidactnow.org/v2/{CAN_File}?apiKey={CAN_Key}'] *)
Definition CAN_url (key : string) : string :=
  "https://api.covidactnow.org/v2/" +:+ CAN_File +:+ "?apiKey=" +:+ key.
Definition df_CAN (key : string) : fetch_step :=
  FetchStep (Csv (CAN_url key)) "covid_act_now.pkl".

Definition JHU_Github_URL : string := "https://raw.githubusercontent.com/CSSEGISandData/".
Definition JHU_Github_Path : string :=
  "COVID-19/master/csse_covid_19_data/csse_covid_19_time_series/".
Definition JHU_File_US_confirmed : string := "time_series_covid19_confirmed_US.csv".
Definition JHU_File_US_deaths : string := "time_series_covid19_deaths_US.csv".
Definition df_JHU_US_confirmed : fetch_step :=
  FetchStep (Csv (JHU_Github_URL +:+ JHU_Github_Path +:+ JHU_File_US_confirmed))
            "jhu_confirmed_us.pkl".
Definition df_JHU_US_deaths : fetch_step :=
  FetchStep (Csv (JHU_Github_URL +:+ JHU_Github_Path +:+ JHU_File_US_deaths))
            "jhu_deaths_us.pkl".

Definition JHU_File_Global_confirmed : string := "time_series_covid19_confirmed_global.csv".
Definition JHU_File_Global_deaths : string := "time_series_covid19_deaths_global.csv".
Definition df_JHU_Global_confirmed : fetch_step :=
  FetchStep (Csv (JHU_Github_URL +:+ JHU_Github_Path +:+ JHU_File_Global_confirmed))
            "jhu_confirmed_global.pkl".
Definition df_JHU_Global_deaths : fetch_step :=
  FetchStep (Csv (JHU_Github_URL +:+ JHU_Github_Path +:+ JHU_File_Global_deaths))
            "jhu_deaths_global.pkl".

Definition JHU_Github_Path2 : string := "COVID-19_Unified-Dataset/master/".
Definition JHU_geo_data : string := "COVID-19_LUT.csv".
Definition df_JHU_geo_data : fetch_step :=
  FetchStep (Csv (JHU_Github_URL +:+ JHU_Github_Path2 +:+ JHU_geo_data))
            "jhu_geo_data.pkl".

(** [geodata_url] is assigned in cell 28 and again in cell 31; cell 33
    uses the second value. *)
Definition geodata_url_28 : string :=
  "https://www.naturalearthdata.com/http//www.naturalearthdata.com/".
Definition geodata_url_31 : string := "https://www2.census.gov/geo/tiger/TIGER2017/".

(** [zip_file_path] is assigned in cells 28, 31 and 33. *)
Definition zip_file_path_28 : string :=
  "download/10m/cultural/ne_10m_admin_0_countries.zip".
Definition zip_file_path_31 : string := "STATE/tl_2017_us_state.zip".
Definition zip_file_path_33 : string := "COUNTY/tl_2017_us_county.zip".

Definition gdf_Global : fetch_step :=
  FetchStep (Shapefile (geodata_url_28 +:+ zip_file_path_28)
                       "shapes_global" "ne_10m_admin_0_countries.shp")
            "ne_10m_admin_0_countries.pkl".
Definition gdf_US_State : fetch_step :=
  FetchStep (Shapefile (geodata_url_31 +:+ zip_file_path_31)
                       "shapes_state" "tl_2017_us_state.shp")
            "tl_2017_us_state.pkl".
Definition gdf_US_County : fetch_step :=
  FetchStep (Shapefile (geodata_url_31 +:+ zip_file_path_33)
                       "shapes_county" "tl_2017_us_county.shp")
            "tl_2017_us_county.pkl".

(** The fetch steps in the order of the cells. *)
Definition fetch_steps (key : string) : list fetch_step :=
  [ df_CTP; df_CAN key;
    df_JHU_US_confirmed; df_JHU_US_deaths;
    df_JHU_Global_confirmed; df_JHU_Global_deaths;
    df_JHU_geo_data;
    gdf_Global; gdf_US_State; gdf_US_County ].

(** The name of a step's scratch folder, when it has one. *)
Definition scratch_name (s : fetch_step) : option string :=
  match src s with
  | Csv _ => None
  | Shapefile _ sub _ => Some sub
  end.

Definition cache_path (today : date) (s : fetch_step) : path :=
  download_folder today // pkl s.

(** The download-and-parse part of a step, up to the frame it yields. *)
Definition fetch (today : date) (s : fetch_step) : M table :=
  match src s with
  | Csv url => read_csv url
  | Shapefile url sub shp => archive_fetch today url sub shp
  end.

Definition step_cell (today : date) (s : fetch_step) : M unit :=
  match src s with
  | Csv url => csv_cell today url (pkl s)
  | Shapefile url sub shp => archive_cell today url sub shp (pkl s)
  end.

Fixpoint run_steps (today : date) (steps : list fetch_step) : M unit :=
  match steps with
  | [] => mret tt
  | s :: rest => step_cell today s;; run_steps today rest
  end.

(** *** The cells that change the state, and the whole notebook

    The remaining code cells only display a frame or plot it. *)
Definition cell_9 (today : date) : M unit := step_cell today df_CTP.
Definition cell_14 (key : string) (today : date) : M unit :=
  step_cell today (df_CAN key).
Definition cell_17 (today : date) : M unit :=
  step_cell today df_JHU_US_confirmed;;
  step_cell today df_JHU_US_deaths.
Definition cell_21 (today : date) : M unit :=
  step_cell today df_JHU_Global_confirmed;;
  step_cell today df_JHU_Global_deaths.
Definition cell_25 (today : date) : M unit := step_cell today df_JHU_geo_data.
Definition cell_28 (today : date) : M unit := step_cell today gdf_Global.
Definition cell_31 (today : date) : M unit := step_cell today gdf_US_State.
Definition cell_33 (today : date) : M unit := step_cell today gdf_US_County.

(** Running every cell from top to bottom; the first exception stops the
    run.  [key] is the text assigned to [CAN_Key]. *)
Definition notebook (key : string) (today : date) : M unit :=
  cell_6 today;;
  cell_9 today;;
  cell_14 key today;;
  cell_17 today;;
  cell_21 today;;
  cell_25 today;;
  cell_28 today;;
  cell_31 today;;
  cell_33 today.

(** [cached W today done m]: the download folder is a directory that holds
    the cache file of every step in [done] and nothing else. *)
Definition cached (today : date) (done : list fetch_step)
    (m : gmap string node) : Prop :=
  ∃ d, m !! folder_name today = Some (Dir d) ∧
       (∀ s, s ∈ done → ∃ df, d !! pkl s = Some (File (pickle_dumps W df))) ∧
       (∀ y, y ∉ (pkl <$> done) → d !! y = None).

End Notebook.

(** ** Predicates used in the statements *)

(** The prior states the preparation is meant for: nothing at the folder's
    name, a directory, or a regular file. *)
Definition absent_dir_or_file (p : path) (m : gmap string node) : Prop :=
  match walk p m with
  | None | Some (Dir _) | Some (File _) => True
  | Some _ => False
  end.

(** [only_entry ws x m m']: [ws] names a directory in [m] and in [m'], and
    the two trees differ at most below the entry [x] of that directory. *)
Definition only_entry (ws x : string) (m m' : gmap string node) : Prop :=
  (∀ c, c ≠ ws → m' !! c = m !! c) ∧
  ∃ d d', m !! ws = Some (Dir d) ∧ m' !! ws = Some (Dir d') ∧
          ∀ y, y ≠ x → d' !! y = d !! y.

(** Every file-system call of the model either leaves the tree alone or
    grafts at the path it was given. *)
Definition grafts_at (p : path) (op : gmap string node → exn + gmap string node) : Prop :=
  ∀ m m', op m = inr m' → m' = m ∨ ∃ f, m' = graft p f m.

(** [confined ws x c]: started where [ws] names a directory, the program
    [c] changes the tree at most below the entry [x] of that directory,
    whether it returns or raises. *)
Definition confined (ws x : string) {A} (c : M A) : Prop :=
  ∀ st d r st', cwd st !! ws = Some (Dir d) → c st = (r, st') →
                only_entry ws x (cwd st) (cwd st').

(** [grows c]: the program [c] only adds to the list of requests. *)
Definition grows {A} (c : M A) : Prop :=
  ∀ st r st', c st = (r, st') → requests st `prefix_of` requests st'.

(** [under ws x p]: the path [p] is the directory [ws] itself or lies at
    or below its entry [x]. *)
Definition under (ws x : string) (p : path) : Prop :=
  p = [ws] ∨ ∃ rest, p = ws :: x :: rest.

(** ** Data for the worked examples *)

Definition example_date : date := Date 2020 12 21.

(** A working directory where the download folder of [example_date] is
    already there and holds a cache file and a left-over scratch folder. *)
Definition example_used_cwd : gmap string node :=
  {[ "2020-12-21-COVID-19-Data" :=
       Dir {[ "jhu_geo_data.pkl" := File [x80; x04];
              "shapes_state" := Dir {[ "tl_2017_us_state.shp" := File [x00] ]} ]};
     "notes.txt" := File [x68; x69] ]}.

(** A working directory where a regular file has the folder's name. *)
Definition example_file_cwd : gmap string node :=
  {[ "2020-12-21-COVID-19-Data" := File [x01]; "notes.txt" := File [x68; x69] ]}.

(** A working directory where a dangling link has the folder's name. *)
Definition example_dangling_cwd : gmap string node :=
  {[ "2020-12-21-COVID-19-Data" := Symlink None ]}.

(** A world where every resource answers except the JHU deaths file for
    the US, every CSV body parses, and every archive holds the county
    shapefile set.  Frames are modelled by a number. *)
Definition example_world_with
    (reader : gmap string node → string → option nat) : world nat :=
  World nat
    (λ url, if decide (url = JHU_Github_URL +:+ JHU_Github_Path +:+ JHU_File_US_deaths)
            then None else Some [x2c])
    (λ body, Some (length body))
    (λ _, Some [ZipFileEntry ["tl_2017_us_county.shp"] [x00];
                ZipFileEntry ["tl_2017_us_county.dbf"] [x01]])
    reader
    (λ n, replicate n x80).

(** The shapefile reader accepts the file set. *)
Definition example_world : world nat := example_world_with (λ d _, Some (size d)).
(** The shapefile reader rejects the file set. *)
Definition example_world_unreadable : world nat := example_world_with (λ _ _, None).

(** The state right after cell 6: an empty download folder, no request. *)
Definition example_fresh : state :=
  State {[ "2020-12-21-COVID-19-Data" := Dir ∅ ]} [].

Definition county_url : string :=
  "https://www2.census.gov/geo/tiger/TIGER2017/COUNTY/tl_2017_us_county.zip".

(** A run that breaks at the fourth step: the download folder of
    [example_used_cwd] is cleared, three CSV resources are fetched and
    cached, and the JHU deaths file for the US does not answer. *)
Definition example_st0 : state := State example_used_cwd [].
Definition example_st1 : state := snd (cell_6 example_date example_st0).
Definition example_pre : list fetch_step :=
  [df_CTP; df_CAN CAN_Key; df_JHU_US_confirmed].
Definition example_post : list fetch_step :=
  [df_JHU_Global_confirmed; df_JHU_Global_deaths; df_JHU_geo_data;
   gdf_Global; gdf_US_State; gdf_US_County].
Definition example_after_cell_9 : state :=
  snd (cell_9 example_world example_date example_st1).
Definition example_st2 : state :=
  snd (run_steps example_world example_date example_pre example_st1).
Definition example_st3 : state :=
  snd (fetch example_world example_date df_JHU_US_deaths example_st2).

(** A download folder before the county step, and just before the
    cleanup of that step. *)
Definition example_before_county : state :=
  State {[ "2020-12-21-COVID-19-Data" :=
             Dir {[ "jhu_geo_data.pkl" := File [x80] ]} ]} [].
Definition example_before_cleanup : state :=
  State {[ "2020-12-21-COVID-19-Data" :=
             Dir {[ "jhu_geo_data.pkl" := File [x80];
                    "tl_2017_us_county.pkl" := File [x80; x80];
                    "shapes_county" :=
                      Dir {[ "tl_2017_us_county.shp" := File [x00];
                             "tl_2017_us_county.dbf" := File [x01] ]} ]} ]}
        [county_url].
Definition example_after_cleanup : state :=
  State {[ "2020-12-21-COVID-19-Data" :=
             Dir {[ "jhu_geo_data.pkl" := File [x80];
                    "tl_2017_us_county.pkl" := File [x80; x80] ]} ]}
        [county_url].

(** ** Notions for the further properties *)

(** The URL a step opens. *)
Definition step_url (s : fetch_step) : string :=
  match src s with
  | Csv url => url
  | Shapefile url _ _ => url
  end.

(** [preserves R c]: whatever [c] does, returning or raising, the state
    it ends in is related by [R] to the state it started in. *)
Definition preserves (R : state → state → Prop) {A} (c : M A) : Prop :=
  ∀ st r st', c st = (r, st') → R st st'.

Definition same_requests (st st' : state) : Prop :=
  requests st' = requests st.



(** A world where every resource answers, every CSV body parses, and
    every archive holds the three shapefile sets. *)
Definition example_world_all : world nat :=
  World nat
    (λ _, Some [x2c])
    (λ body, Some (length body))
    (λ _, Some [ZipFileEntry ["ne_10m_admin_0_countries.shp"] [x00];
                ZipFileEntry ["tl_2017_us_state.shp"] [x01];
                ZipFileEntry ["tl_2017_us_county.shp"] [x02]])
    (λ d _, Some (size d))
    (λ n, replicate n x80).

(** An archive with a read-me file and a directory, but no shapefile. *)
Definition example_world_no_shp : world nat :=
  World nat
    (λ _, Some [x2c])
    (λ body, Some (length body))
    (λ _, Some [ZipDirEntry ["docs"]; ZipFileEntry ["docs"; "README.txt"] [x00]])
    (λ d _, Some (size d))
    (λ n, replicate n x80).

(** A world where nothing answers, and one where every body is rejected. *)
Definition example_world_offline : world nat :=
  World nat (λ _, None) (λ _, None) (λ _, None) (λ _ _, None) (λ _, []).
Definition example_world_garbage : world nat :=
  World nat (λ _, Some [x00]) (λ _, None) (λ _, None) (λ _ _, None) (λ _, []).

(** A download folder that already holds a cache file of the first step. *)
Definition example_stale : state :=
  State {[ "2020-12-21-COVID-19-Data" :=
             Dir {[ "covid_tracking_project.pkl" := File [x01; x02; x03] ]} ]} [].

(** A working directory where a link to a directory, and one where a link
    to a regular file, has the folder's name. *)
Definition example_dirlink_cwd : gmap string node :=
  {[ "2020-12-21-COVID-19-Data" := Symlink (Some S_IFDIR) ]}.

(** [keeps_folder ws st st']: if [ws] names a directory in [st], it still
    does in [st'], and every other entry of the working directory is the
    same in both. *)
Definition keeps_folder (ws : string) (st st' : state) : Prop :=
  ∀ d, cwd st !! ws = Some (Dir d) →
       (∀ c, c ≠ ws → cwd st' !! c = cwd st !! c) ∧
       ∃ d', cwd st' !! ws = Some (Dir d').

(** The state the whole notebook ends in, in [example_world_all]. *)
Definition example_complete : state :=
  snd (notebook example_world_all CAN_Key example_date example_st0).

(** A calendar date of the years 1000 to 9999. *)
Definition valid_date (d : date) : Prop :=
  (1000 ≤ year d < 10 * 1000) ∧ (1 ≤ month d ≤ 12) ∧ (1 ≤ day d ≤ 31).

(** Reading a run of decimal digits back, to tell rendered fields apart. *)
Fixpoint digits_value (acc : nat) (s : string) : nat :=
  match s with
  | EmptyString => acc
  | String a s' => digits_value (10 * acc + (Ascii.nat_of_ascii a - 48)) s'
  end.

(** The field [n] rendered to width [w] has exactly [w] characters and
    reads back as [n]. *)
Definition field_ok (w n : nat) : bool :=
  (String.length (zfill w n) =? w) && (digits_value 0 (zfill w n) =? n).

(** A working directory with the download folders of two days. *)
Definition example_other_date : date := Date 2020 12 20.
Definition example_two_days : state :=
  State {[ "2020-12-20-COVID-19-Data" :=
             Dir {[ "jhu_geo_data.pkl" := File [x07] ]};
           "2020-12-21-COVID-19-Data" :=
             Dir {[ "jhu_geo_data.pkl" := File [x08] ]} ]} [].

(** A download folder where an earlier, failed attempt at the county step
    has left its scratch folder. *)
Definition example_leftover_dir : gmap string node :=
  {[ "jhu_geo_data.pkl" := File [x80];
     "shapes_county" := Dir {[ "old.txt" := File [x6f] ]} ]}.
Definition example_leftover : state :=
  State {[ "2020-12-21-COVID-19-Data" := Dir example_leftover_dir ]} [].

(** * Properties *)

(** ** Paths of depth one and two *)

Lemma walk_1 (c : string) (m : gmap string node) : walk [c] m = m !! c.
Proof. reflexivity. Qed.

Lemma walk_2 (c x : string) (m : gmap string node) :
  walk [c; x] m = match m !! c with Some (Dir d) => d !! x | _ => None end.
Proof. reflexivity. Qed.


(** ** Stepping through a program *)

Lemma bind_ok {A B} (c : M A) (f : A → M B) st a st' :
  c st = (Ok a, st') → (c ≫= f) st = f a st'.
Proof. intros H. unfold mbind, M_bind. by rewrite H. Qed.

Lemma bind_raise {A B} (c : M A) (f : A → M B) st e st' :
  c st = (Raise e, st') → (c ≫= f) st = (Raise e, st').
Proof. intros H. unfold mbind, M_bind. by rewrite H. Qed.

Lemma bind_inv {A B} (c : M A) (f : A → M B) st r st2 :
  (c ≫= f) st = (r, st2) →
  (∃ a st1, c st = (Ok a, st1) ∧ f a st1 = (r, st2)) ∨
  (∃ e, c st = (Raise e, st2) ∧ r = Raise e).
Proof.
  unfold mbind, M_bind. destruct (c st) as [[a|e] st1]; intros H.
  - left. eauto.
  - right. exists e. by inversion H.
Qed.

Lemma syscall_inr op st m :
  op (cwd st) = inr m → syscall op st = (Ok tt, State m (requests st)).
Proof. intros H. unfold syscall. by rewrite H. Qed.

Lemma syscall_inl op st e :
  op (cwd st) = inl e → syscall op st = (Raise e, st).
Proof. intros H. unfold syscall. by rewrite H. Qed.

(** A file-system call changes the tree only when it succeeds, and never
    the list of requests. *)
Lemma syscall_inv op st r st' :
  syscall op st = (r, st') →
  requests st' = requests st ∧
  ((∃ e, r = Raise e ∧ op (cwd st) = inl e ∧ st' = st) ∨
   (r = Ok tt ∧ op (cwd st) = inr (cwd st'))).
Proof.
  unfold syscall. destruct (op (cwd st)) as [e|m] eqn:E; intros H;
    inversion H; subst; split; eauto.
Qed.

(** ** Cell 6 *)

Section Cell6.
Variables (c : string) (m : gmap string node) (rq : list string).

Lemma is_dir_1 :
  is_dir [c] (State m rq) =
    (Ok match m !! c with
        | Some (Dir _) | Some (Symlink (Some S_IFDIR)) => true
        | _ => false
        end, State m rq).
Proof.
  unfold is_dir, query, stat. cbn. by destruct (m !! c) as [[| |[[]|]|]|].
Qed.

Lemma is_file_1 :
  is_file [c] (State m rq) =
    (Ok match m !! c with
        | Some (File _) | Some (Symlink (Some S_IFREG)) => true
        | _ => false
        end, State m rq).
Proof.
  unfold is_file, query, stat. cbn. by destruct (m !! c) as [[| |[[]|]|]|].
Qed.

Lemma rmtree_1 d :
  m !! c = Some (Dir d) →
  rmtree [c] (State m rq) = (Ok tt, State (delete c m) rq).
Proof.
  intros H. unfold rmtree. erewrite syscall_inr; [reflexivity|].
  unfold rmtree_op. cbn. by rewrite H.
Qed.

Lemma rmtree_1_link t :
  m !! c = Some (Symlink t) →
  rmtree [c] (State m rq) = (Raise OSError, State m rq).
Proof.
  intros H. unfold rmtree. erewrite syscall_inl; [reflexivity|].
  unfold rmtree_op. cbn. by rewrite H.
Qed.

Lemma unlink_1 n :
  m !! c = Some n → (∀ d, n ≠ Dir d) →
  unlink [c] (State m rq) = (Ok tt, State (delete c m) rq).
Proof.
  intros H Hn. unfold unlink. erewrite syscall_inr; [reflexivity|].
  unfold unlink_op. cbn. rewrite H. destruct n; try reflexivity.
  by destruct (Hn entries).
Qed.

Lemma mkdir_1_free :
  m !! c = None →
  mkdir [c] (State m rq) = (Ok tt, State (<[c := Dir ∅]> m) rq).
Proof.
  intros H. unfold mkdir. erewrite syscall_inr; [reflexivity|].
  unfold mkdir_op. cbn. by rewrite H.
Qed.

Lemma mkdir_1_taken n :
  m !! c = Some n →
  mkdir [c] (State m rq) = (Raise FileExistsError, State m rq).
Proof.
  intros H. unfold mkdir. erewrite syscall_inl; [reflexivity|].
  unfold mkdir_op. cbn. by rewrite H.
Qed.

End Cell6.

(** What cell 6 does, by the entry it finds at the folder's name. *)
Lemma cell_6_run (today : date) (st : state) :
  cell_6 today st =
    match cwd st !! folder_name today with
    | Some (Symlink (Some S_IFDIR)) => (Raise OSError, st)
    | Some (Symlink (Some S_IFOTHER)) | Some (Symlink None) | Some Special =>
        (Raise FileExistsError, st)
    | _ => (Ok tt, State (<[folder_name today := Dir ∅]> (cwd st)) (requests st))
    end.
Proof.
  destruct st as [m rq]. unfold cell_6, download_folder. cbn [cwd requests].
  set (c := folder_name today).
  erewrite bind_ok; [|apply is_dir_1].
  destruct (m !! c) as [[b|d|[[| |]|]|]|] eqn:E.
  - (* a regular file *)
    erewrite bind_ok; [|erewrite bind_ok; [|apply is_file_1]; rewrite E;
                        eapply unlink_1; [done|done]].
    rewrite mkdir_1_free by apply lookup_delete_eq. by rewrite insert_delete_eq.
  - (* a directory *)
    erewrite bind_ok; [|by eapply rmtree_1].
    rewrite mkdir_1_free by apply lookup_delete_eq. by rewrite insert_delete_eq.
  - (* a link to a directory *)
    erewrite bind_raise; [reflexivity|]. by eapply rmtree_1_link.
  - (* a link to a regular file *)
    erewrite bind_ok; [|erewrite bind_ok; [|apply is_file_1]; rewrite E;
                        eapply unlink_1; [done|done]].
    rewrite mkdir_1_free by apply lookup_delete_eq. by rewrite insert_delete_eq.
  - (* a link to something else *)
    erewrite bind_ok; [|erewrite bind_ok; [|apply is_file_1]; rewrite E; reflexivity].
    by erewrite mkdir_1_taken.
  - (* a dangling link *)
    erewrite bind_ok; [|erewrite bind_ok; [|apply is_file_1]; rewrite E; reflexivity].
    by erewrite mkdir_1_taken.
  - (* a FIFO, socket or device *)
    erewrite bind_ok; [|erewrite bind_ok; [|apply is_file_1]; rewrite E; reflexivity].
    by erewrite mkdir_1_taken.
  - (* nothing *)
    erewrite bind_ok; [|erewrite bind_ok; [|apply is_file_1]; rewrite E; reflexivity].
    by rewrite mkdir_1_free.
Qed.

(** C2: from a state where the download folder's name is free, or names a
    directory (whatever it holds), or names a regular file, cell 6 ends
    normally and leaves an empty directory there; run again at once on the
    same date it ends normally again, leaves an empty directory again, and
    the state after the second run is the state after the first. *)
Theorem workspace_preparation_idempotent (today : date) (st : state) :
  absent_dir_or_file (download_folder today) (cwd st) →
  ∃ st1 st2,
    cell_6 today st = (Ok tt, st1) ∧
    empty_dir (download_folder today) (cwd st1) ∧
    cell_6 today st1 = (Ok tt, st2) ∧
    empty_dir (download_folder today) (cwd st2) ∧
    st2 = st1.
Proof.
  unfold absent_dir_or_file, empty_dir, download_folder. rewrite walk_1.
  intros Hprior.
  exists (State (<[folder_name today := Dir ∅]> (cwd st)) (requests st)).
  exists (State (<[folder_name today := Dir ∅]> (cwd st)) (requests st)).
  rewrite !cell_6_run. cbn [cwd requests]. rewrite !walk_1, lookup_insert_eq.
  rewrite insert_insert_eq.
  destruct (cwd st !! folder_name today) as [[| | |]|]; done.
Qed.

Lemma workspace_preparation_idempotent_witness :
  absent_dir_or_file (download_folder example_date) example_used_cwd ∧
  ∃ st1 st2,
    cell_6 example_date (State example_used_cwd []) = (Ok tt, st1) ∧
    empty_dir (download_folder example_date) (cwd st1) ∧
    cell_6 example_date st1 = (Ok tt, st2) ∧
    empty_dir (download_folder example_date) (cwd st2) ∧
    st2 = st1.
Proof.
  split.
  - vm_compute. exact I.
  - apply (workspace_preparation_idempotent example_date (State example_used_cwd [])).
    vm_compute. exact I.
Defined.

(** C4: when nothing has the download folder's name, cell 6 creates an
    empty directory of that name; when a regular file has it, cell 6
    removes the file and puts an empty directory in its place.  In both
    cases no other entry of the working directory changes. *)
Theorem workspace_preparation_creates (today : date) (st : state) :
  walk (download_folder today) (cwd st) = None ∨
  (∃ data, walk (download_folder today) (cwd st) = Some (File data)) →
  ∃ st',
    cell_6 today st = (Ok tt, st') ∧
    empty_dir (download_folder today) (cwd st') ∧
    (∀ c, c ≠ folder_name today → cwd st' !! c = cwd st !! c) ∧
    requests st' = requests st.
Proof.
  unfold empty_dir, download_folder. rewrite walk_1. intros Hprior.
  exists (State (<[folder_name today := Dir ∅]> (cwd st)) (requests st)).
  rewrite cell_6_run. cbn [cwd requests]. rewrite walk_1, lookup_insert_eq.
  repeat split.
  - destruct Hprior as [-> | [data ->]]; reflexivity.
  - intros c Hc. by rewrite lookup_insert_ne.
Qed.

Lemma workspace_preparation_creates_witness :
  (walk (download_folder example_date) example_file_cwd = None ∨
   (∃ data, walk (download_folder example_date) example_file_cwd = Some (File data))) ∧
  ∃ st',
    cell_6 example_date (State example_file_cwd []) = (Ok tt, st') ∧
    empty_dir (download_folder example_date) (cwd st') ∧
    (∀ c, c ≠ folder_name example_date →
          cwd st' !! c = cwd (State example_file_cwd []) !! c) ∧
    requests st' = requests (State example_file_cwd []).
Proof.
  assert (H : walk (download_folder example_date) example_file_cwd = None ∨
              (∃ data, walk (download_folder example_date) example_file_cwd
                       = Some (File data))).
  { right. exists [x01]. vm_compute. reflexivity. }
  split; [exact H|].
  exact (workspace_preparation_creates example_date (State example_file_cwd []) H).
Defined.

(** C8: when the entry at the download folder's name is neither a
    directory nor a regular file ([is_dir] and [is_file] both answer
    [False] although the name is taken), cell 6 removes nothing: [mkdir]
    raises [FileExistsError] and the state is the one cell 6 started in. *)
Theorem workspace_preparation_occupied (today : date) (st : state) (n : node) :
  walk (download_folder today) (cwd st) = Some n →
  is_dir (download_folder today) st = (Ok false, st) →
  is_file (download_folder today) st = (Ok false, st) →
  cell_6 today st = (Raise FileExistsError, st).
Proof.
  destruct st as [m rq]. unfold download_folder. cbn [cwd].
  rewrite walk_1, is_dir_1, is_file_1, cell_6_run. cbn [cwd].
  intros -> Hd Hf.
  destruct n as [b|d|[[| |]|]|]; try reflexivity; discriminate.
Qed.

Lemma workspace_preparation_occupied_witness :
  walk (download_folder example_date) example_dangling_cwd = Some (Symlink None) ∧
  is_dir (download_folder example_date) (State example_dangling_cwd [])
    = (Ok false, State example_dangling_cwd []) ∧
  is_file (download_folder example_date) (State example_dangling_cwd [])
    = (Ok false, State example_dangling_cwd []) ∧
  cell_6 example_date (State example_dangling_cwd [])
    = (Raise FileExistsError, State example_dangling_cwd []).
Proof.
  assert (H1 : walk (download_folder example_date) example_dangling_cwd
               = Some (Symlink None)) by (vm_compute; reflexivity).
  assert (H2 : is_dir (download_folder example_date) (State example_dangling_cwd [])
               = (Ok false, State example_dangling_cwd [])) by (vm_compute; reflexivity).
  assert (H3 : is_file (download_folder example_date) (State example_dangling_cwd [])
               = (Ok false, State example_dangling_cwd [])) by (vm_compute; reflexivity).
  exact (conj H1 (conj H2 (conj H3
    (workspace_preparation_occupied example_date (State example_dangling_cwd [])
       (Symlink None) H1 H2 H3)))).
Defined.

(** ** Changes confined to one entry of the download folder *)

Lemma only_entry_refl ws x m d : m !! ws = Some (Dir d) → only_entry ws x m m.
Proof. intros H. split; [done|]. by exists d, d. Qed.

Lemma only_entry_trans ws x m1 m2 m3 :
  only_entry ws x m1 m2 → only_entry ws x m2 m3 → only_entry ws x m1 m3.
Proof.
  intros [H1 (d1 & d2 & E1 & E2 & F1)] [H2 (d2' & d3 & E2' & E3 & F2)].
  rewrite E2 in E2'. injection E2' as <-.
  split.
  - intros c Hc. by rewrite H2, H1.
  - exists d1, d3. repeat split; [done..|]. intros y Hy. by rewrite F2, F1.
Qed.

Lemma walk_cons_ext (x : string) (q : path) (d d' : gmap string node) :
  d' !! x = d !! x → walk (x :: q) d' = walk (x :: q) d.
Proof. intros H. destruct q; cbn; by rewrite H. Qed.

Lemma only_entry_walk ws x m m' y q :
  only_entry ws x m m' → y ≠ x →
  walk (ws :: y :: q) m' = walk (ws :: y :: q) m.
Proof.
  intros [_ (d & d' & E & E' & F)] Hy.
  change (match m' !! ws with Some (Dir k) => walk (y :: q) k | _ => None end
          = match m !! ws with Some (Dir k) => walk (y :: q) k | _ => None end).
  rewrite E, E'. apply walk_cons_ext. by apply F.
Qed.

Lemma only_entry_walk_outside ws x m m' c q :
  only_entry ws x m m' → c ≠ ws → walk (c :: q) m' = walk (c :: q) m.
Proof. intros [H _] Hc. apply walk_cons_ext. by apply H. Qed.

Lemma graft_lookup_ne (x y : string) (rest : path) f (d : gmap string node) :
  y ≠ x → graft (x :: rest) f d !! y = d !! y.
Proof.
  intros Hy. destruct rest; cbn.
  - by rewrite lookup_partial_alter_ne.
  - by rewrite lookup_alter_ne.
Qed.

Lemma graft_only_entry ws x rest f m d :
  m !! ws = Some (Dir d) →
  only_entry ws x m (graft (ws :: x :: rest) f m).
Proof.
  intros E. split.
  - intros c Hc. by apply graft_lookup_ne.
  - exists d, (graft (x :: rest) f d). split; [done|]. split.
    + change (alter (λ n, match n with
                          | Dir m' => Dir (graft (x :: rest) f m')
                          | _ => n
                          end) ws m !! ws = Some (Dir (graft (x :: rest) f d))).
      by rewrite lookup_alter_eq, E.
    + intros y Hy. by apply graft_lookup_ne.
Qed.

Lemma rmtree_grafts p : grafts_at p (rmtree_op p).
Proof.
  intros m m'. unfold rmtree_op. destruct p; [done|].
  destruct (walk _ m) as [[]|]; intros H; inversion H; eauto.
Qed.

Lemma unlink_grafts p : grafts_at p (unlink_op p).
Proof.
  intros m m'. unfold unlink_op.
  destruct (walk _ m) as [[]|]; intros H; inversion H; eauto.
Qed.

Lemma mkdir_grafts p : grafts_at p (mkdir_op p).
Proof.
  intros m m'. unfold mkdir_op.
  destruct (walk p m); [done|].
  destruct (walk _ m) as [[]|]; intros H; inversion H; eauto.
Qed.

Lemma write_grafts p data : grafts_at p (write_op p data).
Proof.
  intros m m'. unfold write_op.
  destruct (walk (parent p) m) as [[]|]; try done.
  destruct (walk p m) as [[| |[[]|]|]|]; intros H; inversion H; eauto.
Qed.

Lemma confined_ret ws x {A} (a : A) : confined ws x (mret a : M A).
Proof.
  intros st d r st' E H. inversion H; subst. by eapply only_entry_refl.
Qed.

Lemma confined_raise ws x {A} e : confined ws x (raise e : M A).
Proof.
  intros st d r st' E H. inversion H; subst. by eapply only_entry_refl.
Qed.

Lemma confined_query ws x {A} (q : gmap string node → A) : confined ws x (query q).
Proof.
  intros st d r st' E H. inversion H; subst. by eapply only_entry_refl.
Qed.

Lemma confined_bind ws x {A B} (c : M A) (f : A → M B) :
  confined ws x c → (∀ a, confined ws x (f a)) → confined ws x (c ≫= f).
Proof.
  intros Hc Hf st d r st' E H.
  destruct (bind_inv _ _ _ _ _ H) as [(a & st1 & H1 & H2)|(e & H1 & _)].
  - pose proof (Hc _ _ _ _ E H1) as F1.
    destruct F1 as [G (d0 & d1 & E0 & E1 & F)].
    eapply only_entry_trans; [by split; eauto|]. by eapply (Hf a st1 d1).
  - by eapply Hc.
Qed.

Lemma confined_syscall ws x rest op :
  grafts_at (ws :: x :: rest) op → confined ws x (syscall op).
Proof.
  intros Hop st d r st' E H.
  destruct (syscall_inv _ _ _ _ H) as [_ [(e & _ & _ & ->)|[_ Hm]]].
  - by eapply only_entry_refl.
  - destruct (Hop _ _ Hm) as [->|[f ->]].
    + by eapply only_entry_refl.
    + by eapply graft_only_entry.
Qed.

Lemma under_snoc ws x (l : path) (t : string) :
  l ≠ [] → under ws x (l ++ [t]) → under ws x l.
Proof.
  intros Hl [H|[rest H]].
  - destruct l as [|a [|b l]]; done.
  - destruct l as [|a [|b l]]; [done| |].
    + left. cbn in H. by inversion H.
    + right. cbn in H. inversion H; subst. by exists l.
Qed.

Lemma under_parent ws x (arcname : path) :
  under ws x (parent ([ws; x] ++ arcname)).
Proof.
  unfold parent. destruct arcname as [|a arcname]; [by left|].
  right. exists (removelast (a :: arcname)). reflexivity.
Qed.

Lemma mkdir_confined ws x p : under ws x p → confined ws x (mkdir p).
Proof.
  intros [->|[rest ->]].
  - intros st d r st' E H. unfold mkdir in H.
    rewrite (syscall_inl _ _ FileExistsError) in H.
    + inversion H; subst. by eapply only_entry_refl.
    + unfold mkdir_op. by rewrite walk_1, E.
  - eapply confined_syscall, mkdir_grafts.
Qed.

Section Extraction.
Context {table : Type} (W : world table).

Lemma confined_catch ws x (c : M unit) :
  confined ws x c → confined ws x (catch_FileExistsError c).
Proof.
  intros Hc st d r st' E. unfold catch_FileExistsError.
  destruct (c st) as [[a|e] st1] eqn:Hrun.
  - intros H. inversion H; subst. by eapply Hc.
  - pose proof (Hc _ _ _ _ E Hrun) as F.
    destruct e; intros H; inversion H; by subst.
Qed.

Lemma makedirs_rev_confined ws x (rname : list string) :
  under ws x (rev rname) → confined ws x (makedirs_rev rname).
Proof.
  induction rname as [|t rhead IH]; intros Hu.
  - destruct Hu as [H|[rest H]]; discriminate.
  - cbn [makedirs_rev]. apply confined_bind.
    + destruct rhead as [|h rh]; [apply confined_ret|].
      apply confined_bind; [apply confined_query|].
      intros [|]; [apply confined_ret|].
      apply confined_catch, IH.
      cbn [rev] in Hu. eapply under_snoc; [|exact Hu].
      cbn [rev]. intros Hnil. by apply app_eq_nil in Hnil as [_ ?].
    + intros _. by apply mkdir_confined.
Qed.

Lemma makedirs_confined ws x (name : path) :
  under ws x name → confined ws x (makedirs name).
Proof.
  intros Hu. apply makedirs_rev_confined. by rewrite rev_involutive.
Qed.

Lemma extract_member_confined ws x (member : zip_member) :
  confined ws x (extract_member [ws; x] member).
Proof.
  unfold extract_member. apply confined_bind.
  - set (arcname := match member with
                    | ZipFileEntry a _ => a
                    | ZipDirEntry a => a
                    end).
    pose proof (under_parent ws x arcname) as Hu.
    destruct (parent ([ws; x] ++ arcname)) as [|u us] eqn:Ep;
      [apply confined_ret|].
    apply confined_bind; [apply confined_query|].
    intros [|]; [apply confined_ret|]. by apply makedirs_confined.
  - intros _. destruct member as [a data|a].
    + eapply confined_syscall, write_grafts.
    + apply confined_bind; [apply confined_query|].
      intros [|]; [apply confined_ret|].
      apply mkdir_confined. right. by exists a.
Qed.

Lemma extractall_confined ws x (members : list zip_member) :
  confined ws x (extractall members [ws; x]).
Proof.
  induction members as [|member rest IH]; cbn [extractall].
  - apply confined_ret.
  - apply confined_bind; [apply extract_member_confined|]. by intros _.
Qed.

Lemma urlopen_read_inv url st r st' :
  urlopen_read W url st = (r, st') →
  cwd st' = cwd st ∧ requests st' = requests st ++ [url] ∧
  r = match http_get W url with Some body => Ok body | None => Raise URLError end.
Proof.
  unfold urlopen_read. destruct (http_get W url); intros H; by inversion H.
Qed.

Lemma urlopen_read_confined ws x url : confined ws x (urlopen_read W url).
Proof.
  intros st d r st' E H. apply urlopen_read_inv in H as (Hc & _ & _).
  rewrite Hc. by eapply only_entry_refl.
Qed.

Lemma ZipFile_confined ws x body : confined ws x (ZipFile W body).
Proof.
  unfold ZipFile. destruct (zip_members W body);
    [apply confined_ret|apply confined_raise].
Qed.

Lemma gpd_read_file_inv p st r st' :
  gpd_read_file W p st = (r, st') → st' = st.
Proof.
  unfold gpd_read_file.
  destruct (walk p (cwd st)) as [[]|]; try (intros H; by inversion H).
  destruct (walk (parent p) (cwd st)) as [[]|]; try (intros H; by inversion H).
  destruct (read_shapefile W _ _); intros H; by inversion H.
Qed.

Lemma gpd_read_file_confined ws x p : confined ws x (gpd_read_file W p).
Proof.
  intros st d r st' E H. apply gpd_read_file_inv in H as ->.
  by eapply only_entry_refl.
Qed.

(** The download-and-parse part of an archive step touches nothing but
    its scratch folder, also when it raises half-way. *)
Lemma archive_fetch_confined today url sub shp :
  confined (folder_name today) sub (archive_fetch W today url sub shp).
Proof.
  unfold archive_fetch, urlcleanup.
  apply confined_bind; [apply confined_ret|]. intros _.
  apply confined_bind; [apply urlopen_read_confined|]. intros body.
  apply confined_bind; [apply ZipFile_confined|]. intros members.
  apply confined_bind; [apply extractall_confined|]. intros _.
  apply gpd_read_file_confined.
Qed.

(** Reading a CSV resource leaves the tree alone. *)
Lemma read_csv_inv url st r st' :
  read_csv W url st = (r, st') →
  cwd st' = cwd st ∧ requests st' = requests st ++ [url].
Proof.
  unfold read_csv. intros H.
  destruct (bind_inv _ _ _ _ _ H) as [(a & st1 & H1 & H2)|(e & H1 & _)].
  - apply urlopen_read_inv in H1 as (Hc & Hr & _).
    destruct (parse_csv W a); inversion H2; by subst.
  - by apply urlopen_read_inv in H1 as (Hc & Hr & _).
Qed.

(** A failed request and a rejected body surface as exceptions of the
    call that met them. *)
Lemma read_csv_transport_error url st :
  http_get W url = None →
  read_csv W url st = (Raise URLError, State (cwd st) (requests st ++ [url])).
Proof.
  intros H. unfold read_csv. apply bind_raise. unfold urlopen_read. by rewrite H.
Qed.

Lemma read_csv_parse_error url body st :
  http_get W url = Some body → parse_csv W body = None →
  read_csv W url st = (Raise ParserError, State (cwd st) (requests st ++ [url])).
Proof.
  intros H1 H2. unfold read_csv.
  erewrite bind_ok; [|unfold urlopen_read; by rewrite H1]. by rewrite H2.
Qed.

Lemma archive_fetch_transport_error today url sub shp st :
  http_get W url = None →
  archive_fetch W today url sub shp st
  = (Raise URLError, State (cwd st) (requests st ++ [url])).
Proof.
  intros H. unfold archive_fetch, urlcleanup.
  erewrite bind_ok; [|reflexivity]. apply bind_raise.
  unfold urlopen_read. by rewrite H.
Qed.

End Extraction.

(** ** Paths of depth two in a download folder *)

Lemma graft_2_lookup ws x f (m d : gmap string node) :
  m !! ws = Some (Dir d) →
  graft [ws; x] f m !! ws = Some (Dir (partial_alter f x d)).
Proof.
  intros E.
  change (alter (λ n, match n with
                      | Dir m' => Dir (partial_alter f x m')
                      | _ => n
                      end) ws m !! ws = Some (Dir (partial_alter f x d))).
  by rewrite lookup_alter_eq, E.
Qed.

Lemma write_bytes_fresh ws x data st d :
  cwd st !! ws = Some (Dir d) → d !! x = None →
  write_bytes [ws; x] data st =
    (Ok tt, State (graft [ws; x] (λ _, Some (File data)) (cwd st)) (requests st)).
Proof.
  intros E Hx. unfold write_bytes. apply syscall_inr.
  unfold write_op, parent. cbn [removelast]. by rewrite walk_1, walk_2, E, Hx.
Qed.

Lemma rmtree_2_inv ws x st r st' :
  rmtree [ws; x] st = (r, st') →
  requests st' = requests st ∧
  ((∃ e, r = Raise e ∧ st' = st) ∨
   (r = Ok tt ∧ ∃ d k, cwd st !! ws = Some (Dir d) ∧ d !! x = Some (Dir k) ∧
                       cwd st' = graft [ws; x] (λ _, None) (cwd st))).
Proof.
  unfold rmtree. intros H.
  destruct (syscall_inv _ _ _ _ H) as [Hr [(e & -> & _ & ->)|[-> Hm]]];
    (split; [done|]); [left; eauto|right]. split; [done|].
  unfold rmtree_op in Hm. rewrite walk_2 in Hm.
  destruct (cwd st !! ws) as [[|d| |]|]; try done.
  destruct (d !! x) as [[|k| |]|] eqn:Ex; try done.
  exists d, k. by inversion Hm.
Qed.

(** ** One fetch step *)

Section Steps.
Context {table : Type} (W : world table).

(** An exception in the download-and-parse part is the step's outcome:
    nothing after it runs. *)
Lemma step_cell_raise today s st e st' :
  fetch W today s st = (Raise e, st') →
  step_cell W today s st = (Raise e, st').
Proof.
  unfold step_cell, fetch, csv_cell, archive_cell.
  destruct (src s); intros H; by apply bind_raise.
Qed.

(** The download-and-parse part changes nothing in the download folder
    but the step's scratch folder. *)
Lemma fetch_inv today s st r st' d :
  cwd st !! folder_name today = Some (Dir d) →
  fetch W today s st = (r, st') →
  ∃ d', cwd st' !! folder_name today = Some (Dir d') ∧
        ∀ y, scratch_name s ≠ Some y → d' !! y = d !! y.
Proof.
  intros E. unfold fetch, scratch_name. destruct (src s) as [url|url sub shp].
  - intros H. apply read_csv_inv in H as [Hc _]. exists d. by rewrite Hc.
  - intros H. apply (archive_fetch_confined W today url sub shp _ _ _ _ E) in H.
    destruct H as [_ (d0 & d' & E0 & E' & F)].
    rewrite E in E0. injection E0 as <-.
    exists d'. split; [done|]. intros y Hy. apply F. congruence.
Qed.

(** A step that ends normally has written its cache file, has left no
    scratch folder, and has changed nothing else in the download folder. *)
Lemma step_cell_ok_inv today s st st' d :
  cwd st !! folder_name today = Some (Dir d) →
  d !! pkl s = None →
  scratch_name s ≠ Some (pkl s) →
  step_cell W today s st = (Ok tt, st') →
  ∃ d' df,
    cwd st' !! folder_name today = Some (Dir d') ∧
    d' !! pkl s = Some (File (pickle_dumps W df)) ∧
    (∀ y, scratch_name s = Some y → d' !! y = None) ∧
    (∀ y, y ≠ pkl s → scratch_name s ≠ Some y → d' !! y = d !! y).
Proof.
  intros E Hfree Hne H.
  assert (Hf : ∃ df st1, fetch W today s st = (Ok df, st1) ∧
             (to_pickle W df (cache_path today s) ≫= λ _,
                match scratch_name s with
                | Some sub => rmtree (download_folder today // sub)
                | None => mret tt
                end) st1 = (Ok tt, st')).
  { revert H. unfold step_cell, fetch, scratch_name, csv_cell, archive_cell, cache_path.
    destruct (src s) as [url|url sub shp]; intros H;
      destruct (bind_inv _ _ _ _ _ H) as [(df & st1 & H1 & H2)|(e & _ & ?)];
      try done; exists df, st1; (split; [done|]).
    - by erewrite bind_ok; [|exact H2].
    - exact H2. }
  destruct Hf as (df & st1 & H1 & H2).
  destruct (fetch_inv _ _ _ _ _ _ E H1) as (d1 & E1 & F1).
  assert (Hfree1 : d1 !! pkl s = None) by (by rewrite F1).
  unfold to_pickle, cache_path, download_folder in H2.
  erewrite bind_ok in H2; [|by eapply (write_bytes_fresh _ _ _ _ d1)].
  set (m2 := graft _ _ _) in H2.
  assert (E2 : m2 !! folder_name today
               = Some (Dir (<[pkl s := File (pickle_dumps W df)]> d1))).
  { unfold m2. by erewrite graft_2_lookup. }
  destruct (scratch_name s) as [sub|] eqn:Es.
  - apply rmtree_2_inv in H2 as [_ [(e & ? & _)|(_ & d2 & k & E2' & _ & Hc)]];
      [done|].
    cbn [cwd] in E2', Hc. rewrite E2 in E2'. injection E2' as <-.
    exists (delete sub (<[pkl s := File (pickle_dumps W df)]> d1)), df.
    repeat split.
    + rewrite Hc. by erewrite graft_2_lookup.
    + rewrite lookup_delete_ne by congruence. apply lookup_insert_eq.
    + intros y [= <-]. apply lookup_delete_eq.
    + intros y Hy Hy'. rewrite lookup_delete_ne by congruence.
      rewrite lookup_insert_ne by done. by apply F1.
  - inversion H2; subst. cbn [cwd].
    exists (<[pkl s := File (pickle_dumps W df)]> d1), df.
    repeat split; [done|apply lookup_insert_eq|done|].
    intros y Hy Hy'. rewrite lookup_insert_ne by done. by apply F1.
Qed.

End Steps.

(** ** The run as a sequence of steps *)

Lemma elem_of_omap_scratch (steps : list fetch_step) s y :
  s ∈ steps → scratch_name s = Some y → y ∈ omap scratch_name steps.
Proof. intros Hs Hy. apply list_elem_of_omap. eauto. Qed.

(** The thirteen names the steps use inside the download folder (ten cache
    files, three scratch folders) are pairwise distinct. *)
Lemma workspace_names_NoDup (key : string) :
  NoDup ((pkl <$> fetch_steps key) ++ omap scratch_name (fetch_steps key)).
Proof. apply (bool_decide_unpack _). vm_compute. exact I. Qed.

Section Run.
Context {table : Type} (W : world table).

Lemma cell_6_ok_inv today st st' :
  cell_6 today st = (Ok tt, st') →
  st' = State (<[folder_name today := Dir ∅]> (cwd st)) (requests st).
Proof.
  rewrite cell_6_run.
  destruct (cwd st !! folder_name today) as [[| |[[]|]|]|]; intros H;
    by inversion H.
Qed.

Lemma cached_after_cell_6 today st st' :
  cell_6 today st = (Ok tt, st') → cached W today [] (cwd st').
Proof.
  intros H. apply cell_6_ok_inv in H as ->. exists ∅. cbn [cwd].
  rewrite lookup_insert_eq. split; [done|]. split; [|done].
  intros s Hs. by apply elem_of_nil in Hs.
Qed.

Lemma run_steps_cached today pre : ∀ done st st',
  NoDup (pkl <$> done ++ pre) →
  (∀ s y, s ∈ pre → scratch_name s = Some y → y ∉ pkl <$> done ++ pre) →
  cached W today done (cwd st) →
  run_steps W today pre st = (Ok tt, st') →
  cached W today (done ++ pre) (cwd st').
Proof.
  induction pre as [|s pre IH]; intros done st st' Hnd Hsc Hc H.
  - inversion H; subst. by rewrite app_nil_r.
  - cbn [run_steps] in H.
    destruct (bind_inv _ _ _ _ _ H) as [([] & st1 & H1 & H2)|(e & _ & ?)];
      [|done].
    destruct Hc as (d & E & Hfiles & Hnone).
    rewrite fmap_app in Hnd. apply NoDup_app in Hnd as (Hnd1 & Hnd2 & Hnd3).
    assert (Hs : pkl s ∉ (pkl <$> done)).
    { intros Hin. apply (Hnd2 _ Hin). cbn. left. }
    assert (Hscr : ∀ y, scratch_name s = Some y → y ∉ pkl <$> done ++ s :: pre).
    { intros y Hy. eapply Hsc; [left|done]. }
    assert (Hne : scratch_name s ≠ Some (pkl s)).
    { intros Hy. apply (Hscr _ Hy). rewrite fmap_app. apply elem_of_app.
      right. cbn. left. }
    destruct (step_cell_ok_inv W today s st st1 d E (Hnone _ Hs) Hne H1)
      as (d' & df & E' & Hnew & Hgone & Hsame).
    replace (done ++ s :: pre) with ((done ++ [s]) ++ pre)
      by (by rewrite <- app_assoc).
    apply (IH (done ++ [s]) st1 st').
    + rewrite <- app_assoc. cbn. rewrite fmap_app. apply NoDup_app. done.
    + intros t y Ht Hy. rewrite <- app_assoc. cbn. eapply Hsc; [right|]; done.
    + exists d'. split; [done|]. split.
      * intros t Ht. apply elem_of_app in Ht as [Ht|Ht].
        -- destruct (Hfiles t Ht) as [dt Hdt]. exists dt. rewrite <- Hdt.
           apply Hsame.
           ++ intros Heq. apply Hs. rewrite <- Heq.
              by apply list_elem_of_fmap_2.
           ++ intros Hy. apply (Hscr _ Hy). rewrite fmap_app.
              apply elem_of_app. left. by apply list_elem_of_fmap_2.
        -- apply list_elem_of_singleton in Ht as ->. eauto.
      * intros y Hy. rewrite fmap_app in Hy. cbn in Hy.
        apply not_elem_of_app in Hy as [Hy1 Hy2].
        apply not_elem_of_cons in Hy2 as [Hy2 _].
        destruct (decide (scratch_name s = Some y)) as [Hy3|Hy3].
        -- by apply Hgone.
        -- rewrite Hsame by done. by apply Hnone.
    + exact H2.
Qed.

Lemma run_steps_app_raise today pre s post : ∀ st st2 e st3,
  run_steps W today pre st = (Ok tt, st2) →
  step_cell W today s st2 = (Raise e, st3) →
  run_steps W today (pre ++ s :: post) st = (Raise e, st3).
Proof.
  induction pre as [|a pre IH]; intros st st2 e st3 H1 H2.
  - inversion H1; subst. cbn. by apply bind_raise.
  - cbn [run_steps] in H1.
    destruct (bind_inv _ _ _ _ _ H1) as [([] & st1 & Ha & Hb)|(e' & _ & ?)];
      [|done].
    cbn [app run_steps]. erewrite bind_ok; [|exact Ha]. by eapply IH.
Qed.

(** The notebook is cell 6 followed by the ten steps in order. *)
Lemma notebook_as_steps key today st :
  notebook W key today st =
  (cell_6 today ≫= λ _, run_steps W today (fetch_steps key)) st.
Proof.
  unfold notebook, cell_9, cell_14, cell_17, cell_21, cell_25, cell_28,
    cell_31, cell_33, fetch_steps, run_steps, mbind, M_bind, mret, M_ret.
  repeat match goal with
         | |- context [match ?c ?s with _ => _ end] =>
             destruct (c s) as [[[]|?] ?]
         end; reflexivity.
Qed.

End Run.

(** ** The list of requests only grows *)

Lemma grows_ret {A} (a : A) : grows (mret a : M A).
Proof. intros st r st' H. by inversion H. Qed.

Lemma grows_raise {A} e : grows (raise e : M A).
Proof. intros st r st' H. by inversion H. Qed.

Lemma grows_query {A} (q : gmap string node → A) : grows (query q).
Proof. intros st r st' H. by inversion H. Qed.

Lemma grows_syscall op : grows (syscall op).
Proof. intros st r st' H. apply syscall_inv in H as [-> _]. done. Qed.

Lemma grows_bind {A B} (c : M A) (f : A → M B) :
  grows c → (∀ a, grows (f a)) → grows (c ≫= f).
Proof.
  intros Hc Hf st r st' H.
  destruct (bind_inv _ _ _ _ _ H) as [(a & st1 & H1 & H2)|(e & H1 & _)].
  - etrans; [by eapply Hc|by eapply Hf].
  - by eapply Hc.
Qed.

Section Requests.
Context {table : Type} (W : world table).

Lemma grows_catch (c : M unit) : grows c → grows (catch_FileExistsError c).
Proof.
  intros Hc st r st'. unfold catch_FileExistsError.
  destruct (c st) as [[a|e] st1] eqn:Hrun; pose proof (Hc _ _ _ Hrun) as F.
  - intros H. by inversion H; subst.
  - destruct e; intros H; inversion H; by subst.
Qed.

Lemma grows_urlopen_read url : grows (urlopen_read W url).
Proof.
  intros st r st' H. apply urlopen_read_inv in H as (_ & -> & _).
  by apply prefix_app_r.
Qed.

Lemma grows_makedirs_rev (rname : list string) : grows (makedirs_rev rname).
Proof.
  induction rname as [|t rhead IH]; [apply grows_syscall|].
  cbn [makedirs_rev]. apply grows_bind; [|intros _; apply grows_syscall].
  destruct rhead as [|h rh]; [apply grows_ret|].
  apply grows_bind; [apply grows_query|].
  intros [|]; [apply grows_ret|]. by apply grows_catch.
Qed.

Lemma grows_extract_member targetdir member :
  grows (extract_member targetdir member).
Proof.
  unfold extract_member. apply grows_bind.
  - destruct (parent _); [apply grows_ret|].
    apply grows_bind; [apply grows_query|].
    intros [|]; [apply grows_ret|apply grows_makedirs_rev].
  - intros _. destruct member; [apply grows_syscall|].
    apply grows_bind; [apply grows_query|].
    intros [|]; [apply grows_ret|apply grows_syscall].
Qed.

Lemma grows_extractall members targetdir : grows (extractall members targetdir).
Proof.
  induction members as [|member rest IH]; cbn [extractall]; [apply grows_ret|].
  apply grows_bind; [apply grows_extract_member|]. by intros _.
Qed.

Lemma grows_step_cell today s : grows (step_cell W today s).
Proof.
  unfold step_cell, csv_cell, archive_cell, archive_fetch, read_csv,
    to_pickle, write_bytes, rmtree, urlcleanup, ZipFile.
  destruct (src s) as [url|url sub shp].
  - apply grows_bind; [|intros df; apply grows_syscall].
    apply grows_bind; [apply grows_urlopen_read|]. intros body.
    destruct (parse_csv W body); [apply grows_ret|apply grows_raise].
  - apply grows_bind.
    + apply grows_bind; [apply grows_ret|]. intros _.
      apply grows_bind; [apply grows_urlopen_read|]. intros body.
      apply grows_bind.
      { destruct (zip_members W body); [apply grows_ret|apply grows_raise]. }
      intros members. apply grows_bind; [apply grows_extractall|]. intros _.
      intros st r st' H. by apply gpd_read_file_inv in H as ->.
    + intros gdf. apply grows_bind; [apply grows_syscall|].
      intros _. apply grows_syscall.
Qed.

Lemma grows_run_steps today steps : grows (run_steps W today steps).
Proof.
  induction steps as [|s rest IH]; cbn [run_steps]; [apply grows_ret|].
  apply grows_bind; [apply grows_step_cell|]. by intros _.
Qed.

End Requests.

(** ** The claims about the fetch steps *)

(** C3: suppose cell 6 and the steps before step [s] end normally and the
    download-and-parse part of [s] raises [e] (no connection or a status
    other than 200, bytes the parser rejects, an archive without the
    expected shapefile).  Then nothing catches [e]: the whole notebook
    ends with [e] in the very state the raising call left.  In that state
    the cache file of every earlier step is still in the download folder,
    with the bytes that step pickled, and neither [s] nor any later step
    has a cache file. *)
Theorem fetch_failure_aborts_run {table} (W : world table) (key : string)
    (today : date) (pre : list fetch_step) (s : fetch_step)
    (post : list fetch_step) (st0 st1 st2 st3 : state) (e : exn) :
  fetch_steps key = pre ++ s :: post →
  cell_6 today st0 = (Ok tt, st1) →
  run_steps W today pre st1 = (Ok tt, st2) →
  fetch W today s st2 = (Raise e, st3) →
  notebook W key today st0 = (Raise e, st3) ∧
  (∀ t, t ∈ pre →
        ∃ df, walk (cache_path today t) (cwd st2) = Some (File (pickle_dumps W df)) ∧
              walk (cache_path today t) (cwd st3) = Some (File (pickle_dumps W df))) ∧
  (∀ t, t ∈ s :: post → walk (cache_path today t) (cwd st3) = None).
Proof.
  intros Hsplit H6 Hpre Hs.
  pose proof (workspace_names_NoDup key) as Hnames. rewrite Hsplit in Hnames.
  apply NoDup_app in Hnames as (Hnd & Hcross & _).
  assert (Hscr : ∀ t y, t ∈ pre ++ s :: post → scratch_name t = Some y →
                        y ∉ pkl <$> pre ++ s :: post).
  { intros t y Ht Hy Hin. apply (Hcross _ Hin).
    by eapply elem_of_omap_scratch. }
  assert (Hc : cached W today pre (cwd st2)).
  { apply (run_steps_cached W today pre [] st1 st2); cbn [app].
    - rewrite fmap_app in Hnd. by apply NoDup_app in Hnd as (? & _ & _).
    - intros t y Ht Hy Hin. apply (Hscr t y); [apply elem_of_app; by left|done|].
      rewrite fmap_app. apply elem_of_app. by left.
    - by eapply cached_after_cell_6.
    - done. }
  destruct Hc as (d2 & E2 & Hfiles & Hnone).
  destruct (fetch_inv W today s st2 _ st3 d2 E2 Hs) as (d3 & E3 & F).
  assert (Hkeep : ∀ t, t ∈ pre ++ s :: post → d3 !! pkl t = d2 !! pkl t).
  { intros t Ht. apply F. intros Hy.
    apply (Hscr s (pkl t)); [|done|by apply list_elem_of_fmap_2].
    apply elem_of_app. right. left. }
  assert (Hwalk : ∀ t m d, m !! folder_name today = Some (Dir d) →
                           walk (cache_path today t) m = d !! pkl t).
  { intros t m d E. unfold cache_path, download_folder. cbn [path_join app].
    by rewrite walk_2, E. }
  split; [|split].
  - rewrite notebook_as_steps. erewrite bind_ok; [|exact H6].
    rewrite Hsplit. eapply run_steps_app_raise; [exact Hpre|].
    by apply step_cell_raise.
  - intros t Ht. destruct (Hfiles t Ht) as [df Hdf]. exists df.
    rewrite (Hwalk t _ _ E2), (Hwalk t _ _ E3), Hkeep, Hdf; [done|].
    apply elem_of_app. by left.
  - intros t Ht. rewrite (Hwalk t _ _ E3), Hkeep by (apply elem_of_app; by right).
    apply Hnone. rewrite fmap_app in Hnd.
    apply NoDup_app in Hnd as (_ & Hdisj & _).
    intros Hin. apply (Hdisj _ Hin). change (pkl t ∈ pkl <$> s :: post).
    by apply list_elem_of_fmap_2.
Qed.

(** C1 (as amended): for a step with a scratch folder, (1) when the step
    ends normally the scratch folder no longer exists, and (2) when its
    download-and-parse part raises, the step ends there, in the state the
    raising call left: the cleanup, being the cell's last statement, has
    not run. *)
Theorem scratch_removed_when_step_succeeds {table} (W : world table)
    (today : date) (s : fetch_step) (sub : string) (st : state) :
  scratch_name s = Some sub →
  (∀ st', step_cell W today s st = (Ok tt, st') →
          walk (download_folder today // sub) (cwd st') = None) ∧
  (∀ e st', fetch W today s st = (Raise e, st') →
            step_cell W today s st = (Raise e, st')).
Proof.
  intros Hsub. split; [|intros e st'; apply step_cell_raise].
  intros st'. unfold step_cell, scratch_name in *.
  destruct (src s) as [url|url sub' shp]; [done|]. injection Hsub as ->.
  unfold archive_cell. intros H.
  destruct (bind_inv _ _ _ _ _ H) as [(gdf & st1 & _ & H1)|(e & _ & ?)]; [|done].
  destruct (bind_inv _ _ _ _ _ H1) as [([] & st2 & _ & H2)|(e & _ & ?)]; [|done].
  apply rmtree_2_inv in H2 as [_ [(e & ? & _)|(_ & d & k & E & _ & Hc)]]; [done|].
  unfold download_folder. cbn [path_join app].
  rewrite walk_2, Hc. erewrite graft_2_lookup by done.
  exact (lookup_delete_eq d sub).
Qed.

(** C9: take an archive step that ends normally.  Its last call, the
    cleanup, is [shutil.rmtree] of the step's scratch folder, made in the
    state [st2] that writing the pickle file left.  Across that call the
    cache path of every step, the pickle file just written by this step
    included, is as it was; so is every other entry of the download
    folder at any depth, and everything outside the download folder.
    Only the scratch folder is gone.  In particular, when the cache name
    was free or held a regular file, the step's pickle file is there
    after the cleanup with the bytes that were written. *)
Theorem cleanup_keeps_cache_files {table} (W : world table) (key : string)
    (today : date) (s : fetch_step) (sub : string) (st st' : state) :
  s ∈ fetch_steps key →
  scratch_name s = Some sub →
  step_cell W today s st = (Ok tt, st') →
  ∃ gdf st1 st2,
    fetch W today s st = (Ok gdf, st1) ∧
    to_pickle W gdf (cache_path today s) st1 = (Ok tt, st2) ∧
    rmtree (download_folder today // sub) st2 = (Ok tt, st') ∧
    (∀ t, t ∈ fetch_steps key →
          walk (cache_path today t) (cwd st') = walk (cache_path today t) (cwd st2)) ∧
    (∀ y q, y ≠ sub →
            walk ((download_folder today // y) ++ q) (cwd st')
            = walk ((download_folder today // y) ++ q) (cwd st2)) ∧
    (∀ c q, c ≠ folder_name today → walk (c :: q) (cwd st') = walk (c :: q) (cwd st2)) ∧
    walk (download_folder today // sub) (cwd st') = None ∧
    requests st' = requests st2 ∧
    (walk (cache_path today s) (cwd st1) = None ∨
     (∃ old, walk (cache_path today s) (cwd st1) = Some (File old)) →
     walk (cache_path today s) (cwd st') = Some (File (pickle_dumps W gdf))).
Proof.
  intros Hs Hsub Hrun.
  assert (Hcell : ∃ gdf st1 st2,
            fetch W today s st = (Ok gdf, st1) ∧
            to_pickle W gdf (cache_path today s) st1 = (Ok tt, st2) ∧
            rmtree (download_folder today // sub) st2 = (Ok tt, st')).
  { revert Hrun Hsub. unfold step_cell, fetch, scratch_name, cache_path.
    destruct (src s) as [url|url sub' shp]; [done|]. intros Hrun [= ->].
    unfold archive_cell in Hrun.
    destruct (bind_inv _ _ _ _ _ Hrun) as [(gdf & st1 & H1 & H2)|(e & _ & ?)];
      [|done].
    destruct (bind_inv _ _ _ _ _ H2) as [([] & st2 & H3 & H4)|(e & _ & ?)];
      [|done].
    by exists gdf, st1, st2. }
  destruct Hcell as (gdf & st1 & st2 & Hfetch & Hpickle & Hclean).
  exists gdf, st1, st2. do 3 (split; [done|]).
  unfold cache_path, download_folder in *. cbn [path_join app] in *.
  apply rmtree_2_inv in Hclean as [Hr [(e & ? & _)|(_ & d & k & E & _ & Hc)]];
    [done|].
  assert (F : only_entry (folder_name today) sub (cwd st2) (cwd st')).
  { rewrite Hc. exact (graft_only_entry _ _ [] _ _ d E). }
  assert (Hcaches : ∀ t, t ∈ fetch_steps key →
            walk [folder_name today; pkl t] (cwd st')
            = walk [folder_name today; pkl t] (cwd st2)).
  { intros t Ht. apply (only_entry_walk _ _ _ _ _ [] F).
    intros Heq. pose proof (workspace_names_NoDup key) as Hnames.
    apply NoDup_app in Hnames as (_ & Hcross & _).
    apply (Hcross (pkl t)); [by apply list_elem_of_fmap_2|].
    rewrite Heq. exact (elem_of_omap_scratch _ s sub Hs Hsub). }
  split; [exact Hcaches|]. split; [|split; [|split; [|split]]].
  - intros y q Hy. by apply (only_entry_walk _ _ _ _ _ q F).
  - intros c q Hc'. by eapply only_entry_walk_outside.
  - rewrite walk_2, Hc. erewrite graft_2_lookup by done.
    exact (lookup_delete_eq d sub).
  - done.
  - intros Hprior. rewrite (Hcaches s Hs).
    unfold to_pickle, write_bytes in Hpickle.
    apply syscall_inv in Hpickle as [_ [(e & ? & _)|[_ Hm]]]; [done|].
    unfold write_op, parent in Hm. cbn [removelast] in Hm.
    rewrite walk_1, walk_2 in Hm. rewrite walk_2 in Hprior.
    destruct (cwd st1 !! folder_name today) as [[|d1| |]|] eqn:E1;
      try done; try (by destruct Hprior as [?|[? ?]]).
    assert (Hm' : cwd st2 = graft [folder_name today; pkl s]
                              (λ _, Some (File (pickle_dumps W gdf))) (cwd st1)).
    { destruct Hprior as [Hp|[old Hp]]; rewrite Hp in Hm; by inversion Hm. }
    rewrite walk_2, Hm'. erewrite graft_2_lookup by done.
    exact (lookup_insert_eq d1 (pkl s) _).
Qed.

(** C7: the cache file names of the ten steps are pairwise distinct, the
    three scratch folder names are pairwise distinct, and no cache file
    name is a scratch folder name. *)
Theorem cache_file_names_distinct (key : string) :
  NoDup (pkl <$> fetch_steps key) ∧
  (∀ x, x ∈ pkl <$> fetch_steps key → x ∉ omap scratch_name (fetch_steps key)) ∧
  NoDup (omap scratch_name (fetch_steps key)) ∧
  length (fetch_steps key) = 10 ∧
  length (omap scratch_name (fetch_steps key)) = 3.
Proof.
  pose proof (workspace_names_NoDup key) as H.
  apply NoDup_app in H as (H1 & H2 & H3). done.
Qed.

(** C10: with [CAN_Key] left at its default, the URL of cell 14 carries
    the placeholder text as the value of [apiKey]; cell 14 hands that URL
    to the fetcher in whatever state it is run, as the next request, with
    nothing in the cell looking at the key first; and in a run of the
    notebook where cell 6 and cell 9 end normally, that URL is among the
    requests made. *)
Theorem placeholder_key_is_requested {table} (W : world table)
    (today : date) (st0 st1 st2 : state) :
  cell_6 today st0 = (Ok tt, st1) →
  cell_9 W today st1 = (Ok tt, st2) →
  CAN_url CAN_Key
    = "https://api.covidactnow.org/v2/states.timeseries.csv?apiKey=<your key here>" ∧
  (∀ st, ∃ r st',
     cell_14 W CAN_Key today st = (r, st') ∧
     requests st' = requests st ++
       ["https://api.covidactnow.org/v2/states.timeseries.csv?apiKey=<your key here>"]) ∧
  "https://api.covidactnow.org/v2/states.timeseries.csv?apiKey=<your key here>"
    ∈ requests (snd (notebook W CAN_Key today st0)).
Proof.
  intros H6 H9.
  assert (Hcell : ∀ st, ∃ r st',
            cell_14 W CAN_Key today st = (r, st') ∧
            requests st' = requests st ++ [CAN_url CAN_Key]).
  { intros st. destruct (cell_14 W CAN_Key today st) as [r st'] eqn:H.
    exists r, st'. split; [done|].
    unfold cell_14, step_cell, csv_cell in H. cbn [src df_CAN] in H.
    destruct (bind_inv _ _ _ _ _ H) as [(df & st1' & H1 & H2)|(e & H1 & _)].
    - apply read_csv_inv in H1 as [_ Hr]. unfold to_pickle, write_bytes in H2.
      apply syscall_inv in H2 as [Hr2 _]. by rewrite Hr2, Hr.
    - by apply read_csv_inv in H1 as [_ Hr]. }
  split; [reflexivity|]. split; [exact Hcell|].
  change ("https://api.covidactnow.org/v2/states.timeseries.csv?apiKey=<your key here>")
    with (CAN_url CAN_Key).
  rewrite notebook_as_steps. erewrite bind_ok; [|exact H6].
  unfold fetch_steps.
  match goal with |- context [df_CAN CAN_Key :: ?l] => set (rest := l) end.
  cbn [run_steps]. erewrite bind_ok; [|exact H9].
  destruct (Hcell st2) as (r & st3 & H14 & Hr). unfold cell_14 in H14.
  destruct r as [[]|e].
  - erewrite bind_ok; [|exact H14].
    match goal with |- context [snd (?c st3)] =>
      destruct (c st3) as [r4 st4] eqn:Hrest end.
    cbn [snd]. apply grows_run_steps in Hrest as [k ->].
    rewrite Hr. apply elem_of_app. left. apply elem_of_app. right. left.
  - erewrite bind_raise; [|exact H14]. cbn [snd].
    rewrite Hr. apply elem_of_app. right. left.
Qed.

Lemma placeholder_key_is_requested_witness :
  (cell_6 example_date example_st0 = (Ok tt, example_st1) ∧
   cell_9 example_world example_date example_st1 = (Ok tt, example_after_cell_9)) ∧
  CAN_url CAN_Key
    = "https://api.covidactnow.org/v2/states.timeseries.csv?apiKey=<your key here>" ∧
  (∀ st, ∃ r st',
     cell_14 example_world CAN_Key example_date st = (r, st') ∧
     requests st' = requests st ++
       ["https://api.covidactnow.org/v2/states.timeseries.csv?apiKey=<your key here>"]) ∧
  "https://api.covidactnow.org/v2/states.timeseries.csv?apiKey=<your key here>"
    ∈ requests (snd (notebook example_world CAN_Key example_date example_st0)).
Proof.
  assert (H6 : cell_6 example_date example_st0 = (Ok tt, example_st1))
    by (vm_compute; reflexivity).
  assert (H9 : cell_9 example_world example_date example_st1
               = (Ok tt, example_after_cell_9)) by (vm_compute; reflexivity).
  exact (conj (conj H6 H9)
           (placeholder_key_is_requested example_world example_date
              example_st0 example_st1 example_after_cell_9 H6 H9)).
Defined.

(** ** Worked examples *)

(** C1, counterexample: the county archive is downloaded and unpacked, the
    shapefile reader rejects it, the step ends with [DriverError], and the
    scratch folder [shapes_county] is still there with what was unpacked. *)
Lemma scratch_left_after_failed_parse :
  step_cell example_world_unreadable example_date gdf_US_County example_fresh
  = (Raise DriverError,
     State {[ "2020-12-21-COVID-19-Data" :=
                Dir {[ "shapes_county" :=
                         Dir {[ "tl_2017_us_county.shp" := File [x00];
                                "tl_2017_us_county.dbf" := File [x01] ]} ]} ]}
           [county_url]) ∧
  walk (download_folder example_date // "shapes_county")
       (cwd (snd (step_cell example_world_unreadable example_date gdf_US_County
                            example_fresh)))
  = Some (Dir {[ "tl_2017_us_county.shp" := File [x00];
                 "tl_2017_us_county.dbf" := File [x01] ]}).
Proof. split; vm_compute; reflexivity. Qed.

Lemma scratch_removed_when_step_succeeds_witness :
  scratch_name gdf_US_County = Some "shapes_county" ∧
  step_cell example_world example_date gdf_US_County example_fresh
  = (Ok tt,
     State {[ "2020-12-21-COVID-19-Data" :=
                Dir {[ "tl_2017_us_county.pkl" := File [x80; x80] ]} ]}
           [county_url]) ∧
  walk (download_folder example_date // "shapes_county")
       (cwd (State {[ "2020-12-21-COVID-19-Data" :=
                        Dir {[ "tl_2017_us_county.pkl" := File [x80; x80] ]} ]}
                   [county_url])) = None ∧
  step_cell example_world_unreadable example_date gdf_US_County example_fresh
  = (Raise DriverError,
     snd (fetch example_world_unreadable example_date gdf_US_County example_fresh)).
Proof.
  assert (Hsub : scratch_name gdf_US_County = Some "shapes_county") by reflexivity.
  assert (Hok : step_cell example_world example_date gdf_US_County example_fresh
                = (Ok tt,
                   State {[ "2020-12-21-COVID-19-Data" :=
                              Dir {[ "tl_2017_us_county.pkl" := File [x80; x80] ]} ]}
                         [county_url])) by (vm_compute; reflexivity).
  assert (Hbad : fetch example_world_unreadable example_date gdf_US_County example_fresh
                 = (Raise DriverError,
                    snd (fetch example_world_unreadable example_date gdf_US_County
                               example_fresh))) by (vm_compute; reflexivity).
  pose proof (scratch_removed_when_step_succeeds example_world example_date
                gdf_US_County "shapes_county" example_fresh Hsub) as [H1 _].
  pose proof (scratch_removed_when_step_succeeds example_world_unreadable example_date
                gdf_US_County "shapes_county" example_fresh Hsub) as [_ H2].
  exact (conj Hsub (conj Hok (conj (H1 _ Hok) (H2 _ _ Hbad)))).
Defined.

Lemma fetch_failure_aborts_run_witness :
  (fetch_steps CAN_Key = example_pre ++ df_JHU_US_deaths :: example_post ∧
   cell_6 example_date example_st0 = (Ok tt, example_st1) ∧
   run_steps example_world example_date example_pre example_st1 = (Ok tt, example_st2) ∧
   fetch example_world example_date df_JHU_US_deaths example_st2
   = (Raise URLError, example_st3)) ∧
  notebook example_world CAN_Key example_date example_st0 = (Raise URLError, example_st3) ∧
  (∀ t, t ∈ example_pre →
        ∃ df, walk (cache_path example_date t) (cwd example_st2)
              = Some (File (pickle_dumps example_world df)) ∧
              walk (cache_path example_date t) (cwd example_st3)
              = Some (File (pickle_dumps example_world df))) ∧
  (∀ t, t ∈ df_JHU_US_deaths :: example_post →
        walk (cache_path example_date t) (cwd example_st3) = None).
Proof.
  assert (H0 : fetch_steps CAN_Key = example_pre ++ df_JHU_US_deaths :: example_post)
    by reflexivity.
  assert (H1 : cell_6 example_date example_st0 = (Ok tt, example_st1))
    by (vm_compute; reflexivity).
  assert (H2 : run_steps example_world example_date example_pre example_st1
               = (Ok tt, example_st2)) by (vm_compute; reflexivity).
  assert (H3 : fetch example_world example_date df_JHU_US_deaths example_st2
               = (Raise URLError, example_st3)) by (vm_compute; reflexivity).
  exact (conj (conj H0 (conj H1 (conj H2 H3)))
           (fetch_failure_aborts_run example_world CAN_Key example_date example_pre
              df_JHU_US_deaths example_post example_st0 example_st1 example_st2
              example_st3 URLError H0 H1 H2 H3)).
Defined.

(** The state of the run above when it stops. *)
Example example_run_stops_with :
  example_st3 =
  State {[ "2020-12-21-COVID-19-Data" :=
             Dir {[ "covid_tracking_project.pkl" := File [x80];
                    "covid_act_now.pkl" := File [x80];
                    "jhu_confirmed_us.pkl" := File [x80] ]};
           "notes.txt" := File [x68; x69] ]}
        [ CTP_all_states; CAN_url CAN_Key;
          JHU_Github_URL +:+ JHU_Github_Path +:+ JHU_File_US_confirmed;
          JHU_Github_URL +:+ JHU_Github_Path +:+ JHU_File_US_deaths ].
Proof. vm_compute. reflexivity. Qed.

Lemma cleanup_keeps_cache_files_witness :
  (gdf_US_County ∈ fetch_steps CAN_Key ∧
   scratch_name gdf_US_County = Some "shapes_county" ∧
   step_cell example_world example_date gdf_US_County example_before_county
   = (Ok tt, example_after_cleanup)) ∧
  ∃ gdf st1 st2,
    fetch example_world example_date gdf_US_County example_before_county
    = (Ok gdf, st1) ∧
    to_pickle example_world gdf (cache_path example_date gdf_US_County) st1
    = (Ok tt, st2) ∧
    rmtree (download_folder example_date // "shapes_county") st2
    = (Ok tt, example_after_cleanup) ∧
    (∀ t, t ∈ fetch_steps CAN_Key →
          walk (cache_path example_date t) (cwd example_after_cleanup)
          = walk (cache_path example_date t) (cwd st2)) ∧
    (∀ y q, y ≠ "shapes_county" →
            walk ((download_folder example_date // y) ++ q) (cwd example_after_cleanup)
            = walk ((download_folder example_date // y) ++ q) (cwd st2)) ∧
    (∀ c q, c ≠ folder_name example_date →
            walk (c :: q) (cwd example_after_cleanup) = walk (c :: q) (cwd st2)) ∧
    walk (download_folder example_date // "shapes_county") (cwd example_after_cleanup)
    = None ∧
    requests example_after_cleanup = requests st2 ∧
    (walk (cache_path example_date gdf_US_County) (cwd st1) = None ∨
     (∃ old, walk (cache_path example_date gdf_US_County) (cwd st1)
             = Some (File old)) →
     walk (cache_path example_date gdf_US_County) (cwd example_after_cleanup)
     = Some (File (pickle_dumps example_world gdf))).
Proof.
  assert (H0 : gdf_US_County ∈ fetch_steps CAN_Key).
  { apply list_elem_of_In. cbn. do 9 right. left. reflexivity. }
  assert (H1 : scratch_name gdf_US_County = Some "shapes_county") by reflexivity.
  assert (H2 : step_cell example_world example_date gdf_US_County
                 example_before_county = (Ok tt, example_after_cleanup))
    by (vm_compute; reflexivity).
  exact (conj (conj H0 (conj H1 H2))
           (cleanup_keeps_cache_files example_world CAN_Key example_date
              gdf_US_County "shapes_county" example_before_county
              example_after_cleanup H0 H1 H2)).
Defined.

(** The states of the run above: the pickle file is written with the
    scratch folder still there, then the cleanup removes that folder and
    nothing else. *)
Example cleanup_example_states :
  to_pickle example_world 2 (cache_path example_date gdf_US_County)
    (snd (fetch example_world example_date gdf_US_County example_before_county))
  = (Ok tt, example_before_cleanup) ∧
  rmtree (download_folder example_date // "shapes_county") example_before_cleanup
  = (Ok tt, example_after_cleanup).
Proof. split; vm_compute; reflexivity. Qed.

(** * Further properties of the cells *)

(** ** Cell 6: what it touches *)

(** X1: whatever cell 6 finds and however it ends, it changes no entry of
    the working directory other than the one of the download folder's
    name, and it makes no request.  Whenever it ends normally, whatever
    held the name before, the download folder is an empty directory. *)
Theorem cell_6_changes_only_its_entry (today : date) (st : state)
    (r : outcome unit) (st' : state) :
  cell_6 today st = (r, st') →
  (∀ c, c ≠ folder_name today → cwd st' !! c = cwd st !! c) ∧
  requests st' = requests st ∧
  match r with
  | Ok _ => empty_dir (download_folder today) (cwd st')
  | Raise _ => True
  end.
Proof.
  rewrite cell_6_run. unfold empty_dir, download_folder.
  assert (Hok : ∀ m : gmap string node,
            (∀ c, c ≠ folder_name today →
                  <[folder_name today := Dir ∅]> m !! c = m !! c) ∧
            walk [folder_name today] (<[folder_name today := Dir ∅]> m)
            = Some (Dir ∅)).
  { intros m. split.
    - intros c Hc. by rewrite lookup_insert_ne.
    - by rewrite walk_1, lookup_insert_eq. }
  destruct (cwd st !! folder_name today) as [[| |[[]|]|]|];
    intros H; inversion H; subst; cbn [cwd requests];
    try (destruct (Hok (cwd st)) as [H1 H2]; by repeat split);
    repeat split; auto.
Qed.

Lemma cell_6_changes_only_its_entry_witness :
  cell_6 example_date (State example_used_cwd [])
  = (Ok tt, snd (cell_6 example_date (State example_used_cwd []))) ∧
  (∀ c, c ≠ folder_name example_date →
        cwd (snd (cell_6 example_date (State example_used_cwd []))) !! c
        = cwd (State example_used_cwd []) !! c) ∧
  requests (snd (cell_6 example_date (State example_used_cwd [])))
  = requests (State example_used_cwd []) ∧
  empty_dir (download_folder example_date)
            (cwd (snd (cell_6 example_date (State example_used_cwd [])))).
Proof.
  assert (H : cell_6 example_date (State example_used_cwd [])
              = (Ok tt, snd (cell_6 example_date (State example_used_cwd []))))
    by (vm_compute; reflexivity).
  exact (conj H (cell_6_changes_only_its_entry example_date
                   (State example_used_cwd []) (Ok tt) _ H)).
Defined.

(** X2: when a symbolic link has the download folder's name, cell 6 acts
    on what the link resolves to: for a link to a directory [is_dir]
    answers [True] and [shutil.rmtree], which refuses links, raises
    [OSError] with nothing changed; a link to a regular file is unlinked
    and an empty directory takes its place; a link to anything else stays
    and [mkdir] raises [FileExistsError]. *)
Theorem cell_6_on_a_link (today : date) (st : state) (k : ftype) :
  walk (download_folder today) (cwd st) = Some (Symlink (Some k)) →
  cell_6 today st =
    match k with
    | S_IFDIR => (Raise OSError, st)
    | S_IFREG =>
        (Ok tt, State (<[folder_name today := Dir ∅]> (cwd st)) (requests st))
    | S_IFOTHER => (Raise FileExistsError, st)
    end.
Proof.
  unfold download_folder. rewrite walk_1, cell_6_run. intros ->.
  by destruct k.
Qed.

Lemma cell_6_on_a_link_witness :
  walk (download_folder example_date) example_dirlink_cwd
  = Some (Symlink (Some S_IFDIR)) ∧
  cell_6 example_date (State example_dirlink_cwd [])
  = (Raise OSError, State example_dirlink_cwd []).
Proof.
  assert (H : walk (download_folder example_date) example_dirlink_cwd
              = Some (Symlink (Some S_IFDIR))) by (vm_compute; reflexivity).
  exact (conj H (cell_6_on_a_link example_date (State example_dirlink_cwd [])
                   S_IFDIR H)).
Defined.

(** ** Relations every call of a program keeps *)

Section Preserves.
Variable R : state → state → Prop.
Hypothesis R_refl : ∀ st, R st st.
Hypothesis R_trans : ∀ a b c, R a b → R b c → R a c.

Lemma preserves_ret {A} (a : A) : preserves R (mret a : M A).
Proof. intros st r st' H. inversion H; subst. apply R_refl. Qed.

Lemma preserves_raise {A} e : preserves R (raise e : M A).
Proof. intros st r st' H. inversion H; subst. apply R_refl. Qed.

Lemma preserves_query {A} (q : gmap string node → A) : preserves R (query q).
Proof. intros st r st' H. inversion H; subst. apply R_refl. Qed.

Lemma preserves_bind {A B} (c : M A) (f : A → M B) :
  preserves R c → (∀ a, preserves R (f a)) → preserves R (c ≫= f).
Proof.
  intros Hc Hf st r st' H.
  destruct (bind_inv _ _ _ _ _ H) as [(a & st1 & H1 & H2)|(e & H1 & _)].
  - eapply R_trans; [by eapply Hc|by eapply Hf].
  - by eapply Hc.
Qed.

Lemma preserves_catch (c : M unit) :
  preserves R c → preserves R (catch_FileExistsError c).
Proof.
  intros Hc st r st'. unfold catch_FileExistsError.
  destruct (c st) as [[a|e] st1] eqn:Hrun; pose proof (Hc _ _ _ Hrun) as F.
  - intros H. by inversion H; subst.
  - destruct e; intros H; inversion H; by subst.
Qed.

Hypothesis R_mkdir : ∀ p, preserves R (mkdir p).

Lemma preserves_makedirs_rev (rname : list string) :
  preserves R (makedirs_rev rname).
Proof.
  induction rname as [|t rhead IH]; [apply R_mkdir|].
  cbn [makedirs_rev]. apply preserves_bind; [|intros _; apply R_mkdir].
  destruct rhead as [|h rh]; [apply preserves_ret|].
  apply preserves_bind; [apply preserves_query|].
  intros [|]; [apply preserves_ret|]. by apply preserves_catch.
Qed.

Lemma preserves_extract_member targetdir member :
  (∀ a data, member = ZipFileEntry a data →
             preserves R (write_bytes (targetdir ++ a) data)) →
  preserves R (extract_member targetdir member).
Proof.
  intros Hw. unfold extract_member. apply preserves_bind.
  - destruct (parent _); [apply preserves_ret|].
    apply preserves_bind; [apply preserves_query|].
    intros [|]; [apply preserves_ret|apply preserves_makedirs_rev].
  - intros _. destruct member as [a data|a]; [by apply Hw|].
    apply preserves_bind; [apply preserves_query|].
    intros [|]; [apply preserves_ret|apply R_mkdir].
Qed.

Lemma preserves_extractall members targetdir :
  (∀ a data, ZipFileEntry a data ∈ members →
             preserves R (write_bytes (targetdir ++ a) data)) →
  preserves R (extractall members targetdir).
Proof.
  induction members as [|member rest IH]; intros Hw; cbn [extractall].
  - apply preserves_ret.
  - apply preserves_bind.
    + apply preserves_extract_member. intros a data ->. apply Hw. left.
    + intros _. apply IH. intros a data Hin. apply Hw. by right.
Qed.

End Preserves.

Lemma same_requests_syscall op : preserves same_requests (syscall op).
Proof. intros st r st' H. by apply syscall_inv in H as [? _]. Qed.

Lemma same_requests_trans a b c :
  same_requests a b → same_requests b c → same_requests a c.
Proof. unfold same_requests. congruence. Qed.

(** Unpacking an archive makes no request. *)
Lemma same_requests_extractall members targetdir :
  preserves same_requests (extractall members targetdir).
Proof.
  apply preserves_extractall; try done.
  - apply same_requests_trans.
  - intros p. apply same_requests_syscall.
  - intros a data _. apply same_requests_syscall.
Qed.

(** ** One request per step *)

Section StepRequests.
Context {table : Type} (W : world table).

Lemma archive_fetch_requests today url sub shp st r st' :
  archive_fetch W today url sub shp st = (r, st') →
  requests st' = requests st ++ [url].
Proof.
  unfold archive_fetch, urlcleanup. intros H.
  erewrite bind_ok in H; [|reflexivity].
  destruct (bind_inv _ _ _ _ _ H) as [(body & st1 & H1 & H2)|(e & H1 & _)];
    apply urlopen_read_inv in H1 as (_ & Hr & _); [|done].
  rewrite <- Hr.
  assert (Hkeep : preserves same_requests
            (ZipFile W body ≫= λ zip_file,
               extractall zip_file (download_folder today // sub) ≫= λ _,
               gpd_read_file W (download_folder today // sub // shp))).
  { apply (preserves_bind _ same_requests_trans).
    - unfold ZipFile. destruct (zip_members W body);
        [by apply preserves_ret|by apply preserves_raise].
    - intros members. apply (preserves_bind _ same_requests_trans).
      + apply same_requests_extractall.
      + intros _ st2 r2 st3 H3. by apply gpd_read_file_inv in H3 as ->. }
  exact (Hkeep _ _ _ H2).
Qed.

Lemma step_cell_requests today s st r st' :
  step_cell W today s st = (r, st') →
  requests st' = requests st ++ [step_url s].
Proof.
  unfold step_cell, step_url, csv_cell, archive_cell, to_pickle, write_bytes, rmtree.
  destruct (src s) as [url|url sub shp]; intros H.
  - destruct (bind_inv _ _ _ _ _ H) as [(df & st1 & H1 & H2)|(e & H1 & _)];
      apply read_csv_inv in H1 as [_ Hr]; [|done].
    apply syscall_inv in H2 as [Hr2 _]. by rewrite Hr2.
  - destruct (bind_inv _ _ _ _ _ H) as [(df & st1 & H1 & H2)|(e & H1 & _)];
      apply archive_fetch_requests in H1; [|done].
    destruct (bind_inv _ _ _ _ _ H2) as [(a & st2 & H3 & H4)|(e & H3 & _)];
      apply syscall_inv in H3 as [Hr3 _]; [|by rewrite Hr3].
    apply syscall_inv in H4 as [Hr4 _]. by rewrite Hr4, Hr3.
Qed.

(** The requests of a run of steps: the URLs of the steps reached, in
    order; all of them when the run ends normally. *)
Lemma run_steps_requests today steps : ∀ st r st',
  run_steps W today steps st = (r, st') →
  ∃ n, requests st' = requests st ++ take n (step_url <$> steps) ∧
       (∀ a, r = Ok a → n = length steps).
Proof.
  induction steps as [|s rest IH]; intros st r st' H; cbn [run_steps] in H.
  - inversion H; subst. exists 0. by rewrite app_nil_r.
  - destruct (bind_inv _ _ _ _ _ H) as [([] & st1 & H1 & H2)|(e & H1 & ->)].
    + apply step_cell_requests in H1.
      destruct (IH _ _ _ H2) as (n & Hn & Hall). exists (S n). split.
      * rewrite Hn, H1, <- app_assoc. reflexivity.
      * intros a Ha. cbn. f_equal. by eapply Hall.
    + apply step_cell_requests in H1. exists 1. split; [|done].
      rewrite H1. cbn. by rewrite take_0.
Qed.

End StepRequests.

(** X3: every fetch step, CSV or archive, makes exactly one request, for
    its own URL, whether it ends normally or raises, and at whatever
    point it raises. *)
Theorem step_makes_one_request {table} (W : world table) (today : date)
    (s : fetch_step) (st : state) (r : outcome unit) (st' : state) :
  step_cell W today s st = (r, st') →
  requests st' = requests st ++ [step_url s].
Proof. apply step_cell_requests. Qed.

Lemma step_makes_one_request_witness :
  step_cell example_world_unreadable example_date gdf_US_County example_fresh
  = (Raise DriverError,
     snd (step_cell example_world_unreadable example_date gdf_US_County example_fresh)) ∧
  requests (snd (step_cell example_world_unreadable example_date gdf_US_County
                           example_fresh))
  = requests example_fresh ++ [step_url gdf_US_County].
Proof.
  assert (H : step_cell example_world_unreadable example_date gdf_US_County example_fresh
              = (Raise DriverError,
                 snd (step_cell example_world_unreadable example_date gdf_US_County
                                example_fresh))) by (vm_compute; reflexivity).
  exact (conj H (step_makes_one_request example_world_unreadable example_date
                   gdf_US_County example_fresh _ _ H)).
Defined.

(** ** Failures before anything is written *)

(** X4: when the resource of a step does not answer, the step raises
    [URLError] having made its request and changed nothing in the tree:
    no scratch folder, no cache file. *)
Theorem unanswered_step_changes_nothing {table} (W : world table)
    (today : date) (s : fetch_step) (st : state) :
  http_get W (step_url s) = None →
  step_cell W today s st
  = (Raise URLError, State (cwd st) (requests st ++ [step_url s])).
Proof.
  intros H. apply step_cell_raise. unfold fetch, step_url in *.
  destruct (src s) as [url|url sub shp].
  - by apply read_csv_transport_error.
  - by apply archive_fetch_transport_error.
Qed.

Lemma unanswered_step_changes_nothing_witness :
  http_get example_world_offline (step_url gdf_Global) = None ∧
  step_cell example_world_offline example_date gdf_Global example_fresh
  = (Raise URLError,
     State (cwd example_fresh) (requests example_fresh ++ [step_url gdf_Global])).
Proof.
  assert (H : http_get example_world_offline (step_url gdf_Global) = None)
    by reflexivity.
  exact (conj H (unanswered_step_changes_nothing example_world_offline example_date
                   gdf_Global example_fresh H)).
Defined.

(** X5: when the resource answers with bytes the reader rejects (not a
    CSV table for a CSV step, not a zip archive for an archive step), the
    step raises [ParserError], respectively [BadZipFile], and the tree is
    as before: in particular an archive step has not made its scratch
    folder yet. *)
Theorem rejected_body_changes_nothing {table} (W : world table)
    (today : date) (s : fetch_step) (body : bytes) (st : state) :
  http_get W (step_url s) = Some body →
  match src s with
  | Csv _ => parse_csv W body = None
  | Shapefile _ _ _ => zip_members W body = None
  end →
  step_cell W today s st
  = (Raise match src s with
           | Csv _ => ParserError
           | Shapefile _ _ _ => BadZipFile
           end,
     State (cwd st) (requests st ++ [step_url s])).
Proof.
  intros Hget Hrej. apply step_cell_raise. unfold fetch, step_url in *.
  destruct (src s) as [url|url sub shp].
  - by eapply read_csv_parse_error.
  - unfold archive_fetch, urlcleanup. erewrite bind_ok; [|reflexivity].
    erewrite bind_ok; [|unfold urlopen_read; by rewrite Hget].
    apply bind_raise. unfold ZipFile. by rewrite Hrej.
Qed.

Lemma rejected_body_changes_nothing_witness :
  http_get example_world_garbage (step_url gdf_US_State) = Some [x00] ∧
  zip_members example_world_garbage [x00] = None ∧
  step_cell example_world_garbage example_date gdf_US_State example_fresh
  = (Raise BadZipFile,
     State (cwd example_fresh) (requests example_fresh ++ [step_url gdf_US_State])).
Proof.
  assert (H1 : http_get example_world_garbage (step_url gdf_US_State) = Some [x00])
    by reflexivity.
  assert (H2 : zip_members example_world_garbage [x00] = None) by reflexivity.
  exact (conj H1 (conj H2
    (rejected_body_changes_nothing example_world_garbage example_date gdf_US_State
       [x00] example_fresh H1 H2))).
Defined.

(** ** CSV steps and the cache file *)

Lemma write_bytes_over ws x data st d :
  cwd st !! ws = Some (Dir d) →
  (d !! x = None ∨ ∃ old, d !! x = Some (File old)) →
  write_bytes [ws; x] data st =
    (Ok tt, State (graft [ws; x] (λ _, Some (File data)) (cwd st)) (requests st)).
Proof.
  intros E Hx. unfold write_bytes. apply syscall_inr.
  unfold write_op, parent. cbn [removelast]. rewrite walk_1, walk_2, E.
  by destruct Hx as [->|[old ->]].
Qed.

(** X6: a CSV step whose resource answers and parses, run where the
    download folder is a directory in which the cache name is free or
    held by a regular file, ends normally; afterwards the folder is what
    it was with the cache file holding the pickled frame (an older file
    of that name is overwritten), and nothing else in the working
    directory has changed. *)
Theorem csv_step_writes_cache_file {table} (W : world table) (today : date)
    (s : fetch_step) (url : string) (body : bytes) (df : table)
    (st : state) (d : gmap string node) :
  src s = Csv url →
  http_get W url = Some body →
  parse_csv W body = Some df →
  cwd st !! folder_name today = Some (Dir d) →
  (d !! pkl s = None ∨ ∃ old, d !! pkl s = Some (File old)) →
  ∃ st',
    step_cell W today s st = (Ok tt, st') ∧
    cwd st' !! folder_name today
    = Some (Dir (<[pkl s := File (pickle_dumps W df)]> d)) ∧
    (∀ c, c ≠ folder_name today → cwd st' !! c = cwd st !! c) ∧
    requests st' = requests st ++ [url].
Proof.
  intros Hsrc Hget Hparse E Hx. unfold step_cell, csv_cell. rewrite Hsrc.
  assert (Hread : read_csv W url st
                  = (Ok df, State (cwd st) (requests st ++ [url]))).
  { unfold read_csv. erewrite bind_ok; [|unfold urlopen_read; by rewrite Hget].
    by rewrite Hparse. }
  eexists. split.
  - erewrite bind_ok; [|exact Hread].
    unfold to_pickle, download_folder. cbn [path_join app].
    eapply write_bytes_over; [exact E|exact Hx].
  - cbn [cwd requests]. split; [|split; [|done]].
    + by erewrite graft_2_lookup.
    + intros c Hc. by apply graft_lookup_ne.
Qed.

Lemma csv_step_writes_cache_file_witness :
  (src df_CTP = Csv CTP_all_states ∧
   http_get example_world_all CTP_all_states = Some [x2c] ∧
   parse_csv example_world_all [x2c] = Some 1 ∧
   cwd example_stale !! folder_name example_date
   = Some (Dir {[ "covid_tracking_project.pkl" := File [x01; x02; x03] ]}) ∧
   (({[ "covid_tracking_project.pkl" := File [x01; x02; x03] ]} : gmap string node)
      !! pkl df_CTP = None ∨
    ∃ old, ({[ "covid_tracking_project.pkl" := File [x01; x02; x03] ]} : gmap string node)
             !! pkl df_CTP = Some (File old))) ∧
  ∃ st',
    step_cell example_world_all example_date df_CTP example_stale = (Ok tt, st') ∧
    cwd st' !! folder_name example_date
    = Some (Dir (<[pkl df_CTP := File (pickle_dumps example_world_all 1)]>
                   {[ "covid_tracking_project.pkl" := File [x01; x02; x03] ]})) ∧
    (∀ c, c ≠ folder_name example_date → cwd st' !! c = cwd example_stale !! c) ∧
    requests st' = requests example_stale ++ [CTP_all_states].
Proof.
  assert (H1 : src df_CTP = Csv CTP_all_states) by reflexivity.
  assert (H2 : http_get example_world_all CTP_all_states = Some [x2c]) by reflexivity.
  assert (H3 : parse_csv example_world_all [x2c] = Some 1) by reflexivity.
  assert (H4 : cwd example_stale !! folder_name example_date
               = Some (Dir {[ "covid_tracking_project.pkl" := File [x01; x02; x03] ]}))
    by (vm_compute; reflexivity).
  assert (H5 : ({[ "covid_tracking_project.pkl" := File [x01; x02; x03] ]}
                  : gmap string node) !! pkl df_CTP = None ∨
               ∃ old, ({[ "covid_tracking_project.pkl" := File [x01; x02; x03] ]}
                         : gmap string node) !! pkl df_CTP = Some (File old)).
  { right. exists [x01; x02; x03]. vm_compute. reflexivity. }
  exact (conj (conj H1 (conj H2 (conj H3 (conj H4 H5))))
           (csv_step_writes_cache_file example_world_all example_date df_CTP
              CTP_all_states [x2c] 1 example_stale _ H1 H2 H3 H4 H5)).
Defined.

(** X7: a CSV step run when nothing has the download folder's name any
    more (the folder that cell 6 made was removed or renamed since) still
    downloads and parses; [to_pickle] then raises, and the state is the
    one the download left: nothing is written and the step does not make
    the folder again. *)
Theorem csv_step_without_folder {table} (W : world table) (today : date)
    (s : fetch_step) (url : string) (body : bytes) (df : table) (st : state) :
  src s = Csv url →
  http_get W url = Some body →
  parse_csv W body = Some df →
  walk (download_folder today) (cwd st) = None →
  read_csv W url st = (Ok df, State (cwd st) (requests st ++ [url])) ∧
  ∃ e, to_pickle W df (cache_path today s) (State (cwd st) (requests st ++ [url]))
       = (Raise e, State (cwd st) (requests st ++ [url])) ∧
       step_cell W today s st
       = (Raise e, State (cwd st) (requests st ++ [url])).
Proof.
  intros Hsrc Hget Hparse Hnone. unfold step_cell, csv_cell. rewrite Hsrc.
  assert (Hread : read_csv W url st
                  = (Ok df, State (cwd st) (requests st ++ [url]))).
  { unfold read_csv. erewrite bind_ok; [|unfold urlopen_read; by rewrite Hget].
    by rewrite Hparse. }
  assert (Hwrite : to_pickle W df (cache_path today s)
                     (State (cwd st) (requests st ++ [url]))
                   = (Raise FileNotFoundError,
                      State (cwd st) (requests st ++ [url]))).
  { unfold to_pickle, write_bytes. apply syscall_inl.
    unfold write_op, parent, cache_path, download_folder in *.
    cbn [path_join app removelast cwd]. by rewrite Hnone. }
  split; [exact Hread|]. exists FileNotFoundError. split; [exact Hwrite|].
  erewrite bind_ok; [|exact Hread]. exact Hwrite.
Qed.

Lemma csv_step_without_folder_witness :
  (src df_JHU_geo_data = Csv (JHU_Github_URL +:+ JHU_Github_Path2 +:+ JHU_geo_data) ∧
   http_get example_world_all (JHU_Github_URL +:+ JHU_Github_Path2 +:+ JHU_geo_data)
   = Some [x2c] ∧
   parse_csv example_world_all [x2c] = Some 1 ∧
   walk (download_folder example_date) (cwd (State ∅ [])) = None) ∧
  read_csv example_world_all (JHU_Github_URL +:+ JHU_Github_Path2 +:+ JHU_geo_data)
    (State ∅ [])
  = (Ok 1, State (cwd (State ∅ []))
             (requests (State ∅ [])
                ++ [JHU_Github_URL +:+ JHU_Github_Path2 +:+ JHU_geo_data])) ∧
  ∃ e, to_pickle example_world_all 1 (cache_path example_date df_JHU_geo_data)
         (State (cwd (State ∅ []))
            (requests (State ∅ [])
               ++ [JHU_Github_URL +:+ JHU_Github_Path2 +:+ JHU_geo_data]))
       = (Raise e,
          State (cwd (State ∅ []))
            (requests (State ∅ [])
               ++ [JHU_Github_URL +:+ JHU_Github_Path2 +:+ JHU_geo_data])) ∧
       step_cell example_world_all example_date df_JHU_geo_data (State ∅ [])
       = (Raise e,
          State (cwd (State ∅ []))
            (requests (State ∅ [])
               ++ [JHU_Github_URL +:+ JHU_Github_Path2 +:+ JHU_geo_data])).
Proof.
  assert (H1 : src df_JHU_geo_data
               = Csv (JHU_Github_URL +:+ JHU_Github_Path2 +:+ JHU_geo_data))
    by reflexivity.
  assert (H2 : http_get example_world_all
                 (JHU_Github_URL +:+ JHU_Github_Path2 +:+ JHU_geo_data) = Some [x2c])
    by reflexivity.
  assert (H3 : parse_csv example_world_all [x2c] = Some 1) by reflexivity.
  assert (H4 : walk (download_folder example_date) (cwd (State ∅ [])) = None)
    by (vm_compute; reflexivity).
  exact (conj (conj H1 (conj H2 (conj H3 H4)))
           (csv_step_without_folder example_world_all example_date df_JHU_geo_data
              _ [x2c] 1 (State ∅ []) H1 H2 H3 H4)).
Defined.

(** ** The whole notebook *)

Lemma keeps_folder_refl ws st : keeps_folder ws st st.
Proof. intros d E. split; [done|]. by exists d. Qed.

Lemma keeps_folder_trans ws a b c :
  keeps_folder ws a b → keeps_folder ws b c → keeps_folder ws a c.
Proof.
  intros H1 H2 d E. destruct (H1 d E) as [F1 [d1 E1]].
  destruct (H2 d1 E1) as [F2 [d2 E2]]. split; [|by exists d2].
  intros k Hk. by rewrite F2, F1.
Qed.

Lemma confined_keeps_folder ws x {A} (c : M A) :
  confined ws x c → preserves (keeps_folder ws) c.
Proof.
  intros Hc st r st' H d E.
  destruct (Hc _ _ _ _ E H) as [F (d0 & d' & _ & E' & _)]. split; [done|].
  by exists d'.
Qed.

Section WholeRun.
Context {table : Type} (W : world table).

Lemma step_cell_keeps_folder today s :
  preserves (keeps_folder (folder_name today)) (step_cell W today s).
Proof.
  unfold step_cell, csv_cell, archive_cell, to_pickle, write_bytes, rmtree.
  destruct (src s) as [url|url sub shp].
  - apply (preserves_bind _ (keeps_folder_trans _)).
    + intros st r st' H d E. apply read_csv_inv in H as [Hc _]. rewrite Hc.
      split; [done|]. by exists d.
    + intros df. eapply confined_keeps_folder, confined_syscall, write_grafts.
  - apply (preserves_bind _ (keeps_folder_trans _)).
    + eapply confined_keeps_folder, archive_fetch_confined.
    + intros gdf. apply (preserves_bind _ (keeps_folder_trans _)).
      * eapply confined_keeps_folder, confined_syscall, write_grafts.
      * intros _. eapply confined_keeps_folder, confined_syscall, rmtree_grafts.
Qed.

Lemma run_steps_keeps_folder today steps :
  preserves (keeps_folder (folder_name today)) (run_steps W today steps).
Proof.
  induction steps as [|s rest IH]; cbn [run_steps].
  - apply preserves_ret, keeps_folder_refl.
  - apply (preserves_bind _ (keeps_folder_trans _));
      [apply step_cell_keeps_folder|by intros _].
Qed.

Lemma notebook_outside_folder key today st r st' :
  notebook W key today st = (r, st') →
  ∀ c, c ≠ folder_name today → cwd st' !! c = cwd st !! c.
Proof.
  rewrite notebook_as_steps. intros H c Hc.
  destruct (bind_inv _ _ _ _ _ H) as [([] & st1 & H1 & H2)|(e & H1 & _)].
  - apply cell_6_ok_inv in H1 as ->.
    destruct (run_steps_keeps_folder today _ _ _ _ H2 ∅) as [F _].
    + cbn [cwd]. apply lookup_insert_eq.
    + rewrite F by done. cbn [cwd]. by rewrite lookup_insert_ne.
  - rewrite cell_6_run in H1.
    destruct (cwd st !! folder_name today) as [[| |[[]|]|]|];
      by inversion H1.
Qed.

Lemma notebook_requests key today st r st' :
  notebook W key today st = (r, st') →
  ∃ n, requests st' = requests st ++ take n (step_url <$> fetch_steps key) ∧
       (∀ a, r = Ok a → n = length (fetch_steps key)).
Proof.
  rewrite notebook_as_steps. intros H.
  destruct (bind_inv _ _ _ _ _ H) as [([] & st1 & H1 & H2)|(e & H1 & ->)].
  - apply cell_6_ok_inv in H1 as ->.
    by apply run_steps_requests in H2.
  - exists 0. split; [|done]. rewrite take_0, app_nil_r.
    rewrite cell_6_run in H1.
    destruct (cwd st !! folder_name today) as [[| |[[]|]|]|];
      by inversion H1.
Qed.

Lemma notebook_ok_cached key today st st' :
  notebook W key today st = (Ok tt, st') →
  cached W today (fetch_steps key) (cwd st').
Proof.
  rewrite notebook_as_steps. intros H.
  destruct (bind_inv _ _ _ _ _ H) as [([] & st1 & H1 & H2)|(e & _ & ?)]; [|done].
  pose proof (workspace_names_NoDup key) as Hnames.
  apply NoDup_app in Hnames as (Hnd & Hcross & _).
  apply (run_steps_cached W today (fetch_steps key) [] st1 st'); cbn [app].
  - done.
  - intros s y Hs Hy Hin. apply (Hcross _ Hin). by eapply elem_of_omap_scratch.
  - by eapply cached_after_cell_6.
  - done.
Qed.

End WholeRun.

(** X8: however the notebook ends, it has changed no entry of the working
    directory other than the download folder: every file it writes,
    every folder it makes or removes, lies inside that folder. *)
Theorem notebook_touches_only_download_folder {table} (W : world table)
    (key : string) (today : date) (st : state) (r : outcome unit) (st' : state) :
  notebook W key today st = (r, st') →
  ∀ c q, c ≠ folder_name today → walk (c :: q) (cwd st') = walk (c :: q) (cwd st).
Proof.
  intros H c q Hc. apply walk_cons_ext.
  by eapply notebook_outside_folder.
Qed.

Lemma notebook_touches_only_download_folder_witness :
  notebook example_world CAN_Key example_date example_st0
  = (Raise URLError, example_st3) ∧
  ∀ c q, c ≠ folder_name example_date →
         walk (c :: q) (cwd example_st3) = walk (c :: q) (cwd example_st0).
Proof.
  assert (H : notebook example_world CAN_Key example_date example_st0
              = (Raise URLError, example_st3)) by (vm_compute; reflexivity).
  exact (conj H (notebook_touches_only_download_folder example_world CAN_Key
                   example_date example_st0 _ _ H)).
Defined.

(** X9: however the notebook ends, the requests it has made are the URLs
    of the first [n] fetch steps, in the order of the cells, each once;
    [n] is ten when the notebook ends normally.  Cell 6 makes none. *)
Theorem notebook_requests_in_cell_order {table} (W : world table)
    (key : string) (today : date) (st : state) (r : outcome unit) (st' : state) :
  notebook W key today st = (r, st') →
  ∃ n, requests st' = requests st ++ take n (step_url <$> fetch_steps key) ∧
       (∀ a, r = Ok a → n = 10).
Proof. apply notebook_requests. Qed.

Lemma notebook_requests_in_cell_order_witness :
  notebook example_world CAN_Key example_date example_st0
  = (Raise URLError, example_st3) ∧
  ∃ n, requests example_st3
       = requests example_st0 ++ take n (step_url <$> fetch_steps CAN_Key) ∧
       (∀ a : unit, Raise URLError = Ok a → n = 10).
Proof.
  assert (H : notebook example_world CAN_Key example_date example_st0
              = (Raise URLError, example_st3)) by (vm_compute; reflexivity).
  exact (conj H (notebook_requests_in_cell_order example_world CAN_Key
                   example_date example_st0 _ _ H)).
Defined.

(** X10: when the notebook ends normally, the download folder holds the
    ten cache files, each with the pickled bytes of a frame, and nothing
    else: no scratch folder is left; and the ten URLs have been requested
    in the order of the cells. *)
Theorem notebook_success_leaves_ten_cache_files {table} (W : world table)
    (key : string) (today : date) (st st' : state) :
  notebook W key today st = (Ok tt, st') →
  (∀ t, t ∈ fetch_steps key →
        ∃ df, walk (cache_path today t) (cwd st') = Some (File (pickle_dumps W df))) ∧
  (∀ x, x ∉ pkl <$> fetch_steps key →
        walk (download_folder today // x) (cwd st') = None) ∧
  requests st' = requests st ++ (step_url <$> fetch_steps key).
Proof.
  intros H. destruct (notebook_ok_cached W _ _ _ _ H) as (d & E & Hfiles & Hnone).
  assert (Hwalk : ∀ x, walk (download_folder today // x) (cwd st') = d !! x).
  { intros x. unfold download_folder. cbn [path_join app]. by rewrite walk_2, E. }
  split; [|split].
  - intros t Ht. unfold cache_path. rewrite Hwalk. by apply Hfiles.
  - intros x Hx. rewrite Hwalk. by apply Hnone.
  - destruct (notebook_requests W _ _ _ _ _ H) as (n & Hn & Hall).
    rewrite Hn, (Hall tt eq_refl). rewrite take_ge; [done|].
    by rewrite length_fmap.
Qed.

Lemma notebook_success_leaves_ten_cache_files_witness :
  notebook example_world_all CAN_Key example_date example_st0
  = (Ok tt, example_complete) ∧
  (∀ t, t ∈ fetch_steps CAN_Key →
        ∃ df, walk (cache_path example_date t) (cwd example_complete)
              = Some (File (pickle_dumps example_world_all df))) ∧
  (∀ x, x ∉ pkl <$> fetch_steps CAN_Key →
        walk (download_folder example_date // x) (cwd example_complete) = None) ∧
  requests example_complete
  = requests example_st0 ++ (step_url <$> fetch_steps CAN_Key).
Proof.
  assert (H : notebook example_world_all CAN_Key example_date example_st0
              = (Ok tt, example_complete)) by (vm_compute; reflexivity).
  exact (conj H (notebook_success_leaves_ten_cache_files example_world_all CAN_Key
                   example_date example_st0 example_complete H)).
Defined.

(** ** An archive without the expected shapefile *)












(** What the step of the witness above does: the archive is unpacked, its
    directory made, and [DriverError] raised with the scratch folder left. *)
Example archive_without_shapefile_run :
  step_cell example_world_no_shp example_date gdf_US_County example_fresh
  = (Raise DriverError,
     State {[ "2020-12-21-COVID-19-Data" :=
                Dir {[ "shapes_county" :=
                         Dir {[ "docs" := Dir {[ "README.txt" := File [x00] ]} ]} ]} ]}
           [county_url]).
Proof. vm_compute. reflexivity. Qed.

(** ** One folder per day *)

Lemma field_ok_range (w lo len : nat) :
  forallb (field_ok w) (seq lo len) = true →
  ∀ n, lo ≤ n < lo + len →
       String.length (zfill w n) = w ∧ digits_value 0 (zfill w n) = n.
Proof.
  intros Hall n Hn. rewrite forallb_forall in Hall.
  specialize (Hall n). unfold field_ok in Hall.
  rewrite andb_true_iff, !Nat.eqb_eq in Hall. apply Hall, in_seq. lia.
Qed.

Lemma year_field (y : nat) :
  1000 ≤ y < 10 * 1000 →
  String.length (zfill 4 y) = 4 ∧ digits_value 0 (zfill 4 y) = y.
Proof.
  intros Hy. apply (field_ok_range 4 1000 (9 * 1000)); [by vm_compute|lia].
Qed.

Lemma short_field (n : nat) :
  1 ≤ n ≤ 31 →
  String.length (zfill 2 n) = 2 ∧ digits_value 0 (zfill 2 n) = n.
Proof.
  intros Hn. apply (field_ok_range 2 1 31); [by vm_compute|lia].
Qed.

Lemma string_of_length_2 (s : string) :
  String.length s = 2 → ∃ a b, s = String a (String b EmptyString).
Proof. destruct s as [|a [|b [|]]]; try done. eauto. Qed.

Lemma string_of_length_4 (s : string) :
  String.length s = 4 →
  ∃ a b c d, s = String a (String b (String c (String d EmptyString))).
Proof. destruct s as [|a [|b [|c [|d [|]]]]]; try done. eauto 6. Qed.

Lemma folder_name_inj (d1 d2 : date) :
  valid_date d1 → valid_date d2 → folder_name d1 = folder_name d2 → d1 = d2.
Proof.
  destruct d1 as [y1 m1 dd1], d2 as [y2 m2 dd2].
  intros (Hy1 & Hm1 & Hd1) (Hy2 & Hm2 & Hd2). cbn [year month day] in *.
  destruct (year_field y1 Hy1) as [Ly1 Vy1], (year_field y2 Hy2) as [Ly2 Vy2].
  destruct (short_field m1 ltac:(lia)) as [Lm1 Vm1],
           (short_field m2 ltac:(lia)) as [Lm2 Vm2].
  destruct (short_field dd1 Hd1) as [Ld1 Vd1], (short_field dd2 Hd2) as [Ld2 Vd2].
  unfold folder_name, strftime_Ymd. cbn [year month day].
  destruct (string_of_length_4 _ Ly1) as (a1 & b1 & c1 & e1 & Ey1).
  destruct (string_of_length_4 _ Ly2) as (a2 & b2 & c2 & e2 & Ey2).
  destruct (string_of_length_2 _ Lm1) as (f1 & g1 & Em1).
  destruct (string_of_length_2 _ Lm2) as (f2 & g2 & Em2).
  destruct (string_of_length_2 _ Ld1) as (h1 & i1 & Ed1).
  destruct (string_of_length_2 _ Ld2) as (h2 & i2 & Ed2).
  rewrite Ey1, Ey2, Em1, Em2, Ed1, Ed2. cbn [String.append].
  intros Heq. injection Heq as -> -> -> -> -> -> -> ->.
  rewrite <- Ey2 in Ey1. rewrite <- Em2 in Em1. rewrite <- Ed2 in Ed1.
  rewrite <- Vy1, <- Vy2, <- Vm1, <- Vm2, <- Vd1, <- Vd2.
  by rewrite Ey1, Em1, Ed1.
Qed.

(** X12: for calendar dates of the years 1000 to 9999, different dates
    give different download folder names: the name determines the date. *)
Theorem download_folder_per_day (d1 d2 : date) :
  valid_date d1 → valid_date d2 →
  download_folder d1 = download_folder d2 → d1 = d2.
Proof.
  intros H1 H2 Heq. apply folder_name_inj; [done..|].
  unfold download_folder in Heq. by injection Heq.
Qed.

Lemma download_folder_per_day_witness :
  valid_date example_date ∧ valid_date example_date ∧
  download_folder example_date = download_folder example_date ∧
  example_date = example_date.
Proof.
  assert (H : valid_date example_date) by (vm_compute; lia).
  exact (conj H (conj H (conj eq_refl
           (download_folder_per_day example_date example_date H H eq_refl)))).
Defined.

(** X13: a run of the notebook, however it ends, leaves the download
    folder of every other day as it was, with all it holds: only the
    folder of the day of the run is cleared and refilled. *)
Theorem notebook_keeps_other_days {table} (W : world table) (key : string)
    (today other : date) (st : state) (r : outcome unit) (st' : state) :
  valid_date today → valid_date other → other ≠ today →
  notebook W key today st = (r, st') →
  ∀ q, walk (download_folder other ++ q) (cwd st')
       = walk (download_folder other ++ q) (cwd st).
Proof.
  intros Ht Ho Hne H q. unfold download_folder. cbn [app].
  apply walk_cons_ext. eapply notebook_outside_folder; [exact H|].
  intros Heq. apply Hne. by apply folder_name_inj.
Qed.

Lemma notebook_keeps_other_days_witness :
  (valid_date example_date ∧ valid_date example_other_date ∧
   example_other_date ≠ example_date ∧
   notebook example_world CAN_Key example_date example_two_days
   = (Raise URLError,
      snd (notebook example_world CAN_Key example_date example_two_days))) ∧
  ∀ q, walk (download_folder example_other_date ++ q)
            (cwd (snd (notebook example_world CAN_Key example_date example_two_days)))
       = walk (download_folder example_other_date ++ q) (cwd example_two_days).
Proof.
  assert (H1 : valid_date example_date) by (vm_compute; lia).
  assert (H2 : valid_date example_other_date) by (vm_compute; lia).
  assert (H3 : example_other_date ≠ example_date) by discriminate.
  assert (H4 : notebook example_world CAN_Key example_date example_two_days
               = (Raise URLError,
                  snd (notebook example_world CAN_Key example_date example_two_days)))
    by (vm_compute; reflexivity).
  exact (conj (conj H1 (conj H2 (conj H3 H4)))
           (notebook_keeps_other_days example_world CAN_Key example_date
              example_other_date example_two_days _ _ H1 H2 H3 H4)).
Defined.

(** ** The net effect of a step that ends normally *)

(** X14: a step that ends normally, run where the download folder is a
    directory and the step's cache name is free, leaves the folder as it
    was except for two entries: the cache file, now holding the pickled
    bytes of a frame, and the step's scratch folder, which is absent
    afterwards even if an earlier failed attempt had left one. *)
Theorem step_leaves_only_its_cache_file {table} (W : world table)
    (today : date) (s : fetch_step) (st st' : state) (d : gmap string node) :
  cwd st !! folder_name today = Some (Dir d) →
  d !! pkl s = None →
  scratch_name s ≠ Some (pkl s) →
  step_cell W today s st = (Ok tt, st') →
  ∃ df,
    cwd st' !! folder_name today
    = Some (Dir (<[pkl s := File (pickle_dumps W df)]>
                   match scratch_name s with
                   | Some sub => delete sub d
                   | None => d
                   end)).
Proof.
  intros E Hfree Hne H.
  destruct (step_cell_ok_inv W today s st st' d E Hfree Hne H)
    as (d' & df & E' & Hnew & Hgone & Hsame).
  exists df. rewrite E'. do 2 f_equal. apply map_eq. intros y.
  destruct (decide (y = pkl s)) as [->|Hy].
  { by rewrite lookup_insert_eq. }
  rewrite lookup_insert_ne by done.
  destruct (scratch_name s) as [sub|] eqn:Es.
  - destruct (decide (y = sub)) as [->|Hy'].
    + rewrite lookup_delete_eq. by apply Hgone.
    + rewrite lookup_delete_ne by done. apply Hsame; [done|congruence].
  - by apply Hsame.
Qed.

Lemma step_leaves_only_its_cache_file_witness :
  (cwd example_leftover !! folder_name example_date = Some (Dir example_leftover_dir) ∧
   example_leftover_dir !! pkl gdf_US_County = None ∧
   scratch_name gdf_US_County ≠ Some (pkl gdf_US_County) ∧
   step_cell example_world example_date gdf_US_County example_leftover
   = (Ok tt, snd (step_cell example_world example_date gdf_US_County example_leftover))) ∧
  ∃ df,
    cwd (snd (step_cell example_world example_date gdf_US_County example_leftover))
      !! folder_name example_date
    = Some (Dir (<[pkl gdf_US_County := File (pickle_dumps example_world df)]>
                   match scratch_name gdf_US_County with
                   | Some sub => delete sub example_leftover_dir
                   | None => example_leftover_dir
                   end)).
Proof.
  assert (H1 : cwd example_leftover !! folder_name example_date
               = Some (Dir example_leftover_dir)) by (vm_compute; reflexivity).
  assert (H2 : example_leftover_dir !! pkl gdf_US_County = None)
    by (vm_compute; reflexivity).
  assert (H3 : scratch_name gdf_US_County ≠ Some (pkl gdf_US_County))
    by discriminate.
  assert (H4 : step_cell example_world example_date gdf_US_County example_leftover
               = (Ok tt, snd (step_cell example_world example_date gdf_US_County
                                        example_leftover)))
    by (vm_compute; reflexivity).
  exact (conj (conj H1 (conj H2 (conj H3 H4)))
           (step_leaves_only_its_cache_file example_world example_date gdf_US_County
              example_leftover _ example_leftover_dir H1 H2 H3 H4)).
Defined.

(** The state the witness above ends in: the left-over [old.txt] went
    with the scratch folder, and the frame read from the three unpacked
    and left-over files was pickled. *)
Example step_after_leftover_run :
  step_cell example_world example_date gdf_US_County example_leftover
  = (Ok tt,
     State {[ "2020-12-21-COVID-19-Data" :=
                Dir {[ "jhu_geo_data.pkl" := File [x80];
                       "tl_2017_us_county.pkl" := File [x80; x80; x80] ]} ]}
           [county_url]).
Proof. vm_compute. reflexivity. Qed.
